(** * Report transmission: scheduling and delivery

    A shallow embedding of two Go packages of the repository:

    - package [transmission] (the delay schedule of capability requests):
      [ExtractTransmissionConfig], [createTransmissionSchedule], [delayFor],
      [transmissionScheduleSeed], [GetPeerIDToTransmissionDelaysForConfig];
    - package [mercurytransmitter], file [server.go] (the per-server
      delivery loops): [transmit], [runQueueLoop], [runDeleteQueueLoop].

    Go's [int] and [time.Duration] are 64-bit integers: they are modelled as
    [Z] with the wrap-around written out.  Calls that leave the repository
    (Keccak, libocr's [permutation.Permutation], the [values.Map] decoder, the
    packers, the network client, the queue and the ORM) are parameters of the
    sections, or answers read from an explicit environment record. *)

From Stdlib Require Import ZArith Lia Strings.Ascii Strings.String Strings.Byte.
From stdpp Require Import base tactics option list list_numbers strings gmap fin_maps.

Local Open Scope Z_scope.

(** ** Go basics *)

Module Go.

(** Two's complement wrap-around of a [w]-bit signed integer. *)
Definition wrap (w : Z) (z : Z) : Z := (z + 2 ^ (w - 1)) mod 2 ^ w - 2 ^ (w - 1).

Definition wrap64 (z : Z) : Z := wrap 64 z.
Definition wrap32 (z : Z) : Z := wrap 32 z.

(** The values of type [int] / [int64]. *)
Definition is_int64 (z : Z) : Prop := - 2 ^ 63 <= z < 2 ^ 63.

Definition maxInt64 : Z := 2 ^ 63 - 1.

(** What a call that returns [(T, error)] can do: return a value, return
    a non-nil error, or panic (index out of range, nil dereference). *)
Inductive outcome (A : Type) : Type :=
| Ret (a : A)
| Error (msg : string)
| Panic.
Arguments Ret {A} a.
Arguments Error {A} msg.
Arguments Panic {A}.

(** [l[i]] for an [int] index: out of range panics. *)
Definition index {A : Type} (l : list A) (i : Z) : outcome A :=
  if i <? 0 then Panic
  else match l !! Z.to_nat i with
       | Some x => Ret x
       | None => Panic
       end.

(** [copy(dst[:], src)] into a zero-valued [[n]byte]. *)
Definition copy_into_zeroed (n : nat) (src : list byte) : list byte :=
  take n src ++ replicate (n - length src) x00.

End Go.
Export Go.

(** ** Package [time] of the Go standard library: [ParseDuration]

    A duration string is an optional sign followed by one or more groups,
    each a decimal number (digits, optionally a period and more digits) and
    a unit.  The accumulators are [uint64]; the library computes the
    contribution of a fraction in [float64], which is written here as the
    integer quotient (the two can differ by a nanosecond on fractions of
    large units).  The library appends the quoted input to its error
    texts; the texts here stop before it.  What is used below is whether
    the parse succeeds and, for inputs without a fraction, its value. *)

Module time.

Definition Duration : Type := Z.

Definition Nanosecond : Duration := 1.
Definition Microsecond : Duration := 1000 * Nanosecond.
Definition Millisecond : Duration := 1000 * Microsecond.
Definition Second : Duration := 1000 * Millisecond.
Definition Minute : Duration := 60 * Second.
Definition Hour : Duration := 60 * Minute.

Definition is_digit (c : ascii) : bool :=
  ((48 <=? nat_of_ascii c) && (nat_of_ascii c <=? 57))%nat.

Definition is_dot (c : ascii) : bool := (nat_of_ascii c =? 46)%nat.

Definition digit_val (c : ascii) : Z := Z.of_nat (nat_of_ascii c) - 48.

Definition wrap_u64 (z : Z) : Z := z mod 2 ^ 64.

(** The two spellings of the micro sign, as UTF-8 bytes. *)
Definition micro_b5 : string :=
  String (ascii_of_nat 194) (String (ascii_of_nat 181) "s").
Definition micro_3bc : string :=
  String (ascii_of_nat 206) (String (ascii_of_nat 188) "s").

Definition unitMap (u : string) : option Z :=
  if String.eqb u "ns" then Some Nanosecond
  else if String.eqb u "us" then Some Microsecond
  else if String.eqb u micro_b5 then Some Microsecond
  else if String.eqb u micro_3bc then Some Microsecond
  else if String.eqb u "ms" then Some Millisecond
  else if String.eqb u "s" then Some Second
  else if String.eqb u "m" then Some Minute
  else if String.eqb u "h" then Some Hour
  else None.

(** [leadingInt]: the leading [[0-9]*]; [None] on overflow. *)
Fixpoint leadingInt (x : Z) (s : string) : option (Z * string) :=
  match s with
  | String c s' =>
      if is_digit c then
        if 2 ^ 63 / 10 <? x then None
        else
          let x' := wrap_u64 (x * 10 + digit_val c) in
          if 2 ^ 63 <? x' then None else leadingInt x' s'
      else Some (x, s)
  | EmptyString => Some (x, s)
  end.

(** [leadingFraction]: the leading [[0-9]*] after the period, with the
    power of ten it is scaled by; digits past the overflow are dropped. *)
Fixpoint leadingFraction (x scale : Z) (overflow : bool) (s : string)
  : Z * Z * string :=
  match s with
  | String c s' =>
      if is_digit c then
        if overflow then leadingFraction x scale true s'
        else if (2 ^ 63 - 1) / 10 <? x then leadingFraction x scale true s'
        else
          let y := wrap_u64 (x * 10 + digit_val c) in
          if 2 ^ 63 <? y then leadingFraction x scale true s'
          else leadingFraction y (scale * 10) false s'
      else (x, scale, s)
  | EmptyString => (x, scale, s)
  end.

(** The unit: everything up to the next period or digit. *)
Fixpoint span_unit (s : string) : string * string :=
  match s with
  | String c s' =>
      if is_dot c || is_digit c then (EmptyString, s)
      else let '(u, r) := span_unit s' in (String c u, r)
  | EmptyString => (EmptyString, EmptyString)
  end.

Definition invalid_duration : string := "time: invalid duration".

(** The loop [for s != ""] of [ParseDuration]; every round consumes at
    least the unit, so [S (length s)] rounds are enough. *)
Fixpoint parse_groups (fuel : nat) (d : Z) (s : string) : outcome Z :=
  match fuel with
  | O => Error invalid_duration
  | S fuel' =>
      match s with
      | EmptyString => Ret d
      | String c _ =>
          if negb (is_dot c || is_digit c) then Error invalid_duration
          else
            match leadingInt 0 s with
            | None => Error invalid_duration
            | Some (v, s1) =>
                let pre := negb (String.length s =? String.length s1)%nat in
                let '(f, scale, s2, post) :=
                  match s1 with
                  | String c1 r =>
                      if is_dot c1 then
                        let '(f, scale, r') := leadingFraction 0 1 false r in
                        (f, scale, r', negb (String.length r =? String.length r')%nat)
                      else (0, 1, s1, false)
                  | EmptyString => (0, 1, s1, false)
                  end in
                if negb pre && negb post then Error invalid_duration
                else
                  let '(u, s3) := span_unit s2 in
                  if (String.length u =? 0)%nat
                  then Error "time: missing unit in duration"
                  else
                    match unitMap u with
                    | None => Error "time: unknown unit in duration"
                    | Some unit =>
                        if 2 ^ 63 / unit <? v then Error invalid_duration
                        else
                          let v1 := wrap_u64 (v * unit) in
                          let v2 :=
                            if 0 <? f then wrap_u64 (v1 + f * unit / scale)
                            else v1 in
                          if (0 <? f) && (2 ^ 63 <? v2) then Error invalid_duration
                          else
                            let d' := wrap_u64 (d + v2) in
                            if 2 ^ 63 <? d' then Error invalid_duration
                            else parse_groups fuel' d' s3
                    end
            end
      end
  end.

Definition is_sign (c : ascii) : bool :=
  (nat_of_ascii c =? 45)%nat || (nat_of_ascii c =? 43)%nat.

Definition ParseDuration (s : string) : outcome Duration :=
  let '(neg, s) :=
    match s with
    | String c r => if is_sign c then ((nat_of_ascii c =? 45)%nat, r) else (false, s)
    | EmptyString => (false, s)
    end in
  if String.eqb s "0" then Ret 0
  else if String.eqb s "" then Error invalid_duration
  else
    match parse_groups (S (String.length s)) 0 s with
    | Ret d =>
        if neg then Ret (wrap64 (- wrap64 d))
        else if 2 ^ 63 - 1 <? d then Error invalid_duration
        else Ret d
    | Error e => Error e
    | Panic => Panic
    end.

End time.

(** ** Package [transmission] *)

Module transmission.

Import time.

Definition Schedule_AllAtOnce : string := "allAtOnce".
Definition Schedule_OneAtATime : string := "oneAtATime".

Record TransmissionConfig : Type := {
  Schedule : string;
  DeltaStage : Duration
}.

(** The anonymous struct [tc] that the request configuration is
    unwrapped into. *)
Record rawConfig : Type := {
  raw_DeltaStage : string;
  raw_Schedule : string
}.

Section Extract.

(** [values.Map] and its method [UnwrapTo] belong to chainlink-common:
    the decoder is a parameter.  It fills the zero-valued struct or
    returns an error. *)
Context {ValuesMap : Type}.
Variable Map_UnwrapTo : ValuesMap -> outcome rawConfig.

Definition ExtractTransmissionConfig (config : ValuesMap)
  : outcome TransmissionConfig :=
  match Map_UnwrapTo config with
  | Error err =>
      Error ("failed to unwrap tranmission config from value map: " +:+ err)
  | Panic => Panic
  | Ret tc =>
      (* Default if no schedule and deltaStage is provided *)
      if (String.length (raw_Schedule tc) =? 0)%nat
         && (String.length (raw_DeltaStage tc) =? 0)%nat
      then Ret {| Schedule := Schedule_AllAtOnce; DeltaStage := 0 |}
      else
        match ParseDuration (raw_DeltaStage tc) with
        | Error err =>
            Error ("failed to parse DeltaStage " +:+ raw_DeltaStage tc
                   +:+ " as duration: " +:+ err)
        | Panic => Panic
        | Ret duration =>
            Ret {| Schedule := raw_Schedule tc; DeltaStage := duration |}
        end
  end.

End Extract.

(** [createTransmissionSchedule]: the bucket sizes. *)
Definition createTransmissionSchedule (scheduleType : string) (N : Z)
  : outcome (list Z) :=
  if String.eqb scheduleType Schedule_AllAtOnce then Ret [N]
  else if String.eqb scheduleType Schedule_OneAtATime then
    (* for i := 0; i < N; i++ { sch = append(sch, 1) } *)
    Ret (replicate (Z.to_nat N) 1)
  else Error ("unknown schedule type " +:+ scheduleType).

(** The loop of [delayFor], from bucket [i] on with the running [sum];
    [None] is the nil pointer. *)
Fixpoint delayFor_from (i sum : Z) (schedule : list Z) (position : Z)
    (permutation : list Z) (deltaStage : Duration) : outcome (option Duration) :=
  match schedule with
  | [] => Ret None
  | s :: rest =>
      let sum := wrap64 (sum + s) in
      match index permutation position with
      | Ret rank =>
          if rank <? sum then Ret (Some (wrap64 (i * deltaStage)))
          else delayFor_from (i + 1) sum rest position permutation deltaStage
      | Error e => Error e
      | Panic => Panic
      end
  end.

Definition delayFor (position : Z) (schedule : list Z) (permutation : list Z)
    (deltaStage : Duration) : outcome (option Duration) :=
  delayFor_from 0 0 schedule position permutation deltaStage.

Section Scheduler.

(** [types.PeerID] is a [[32]byte] declared in package [p2p/types]. *)
Context {PeerID : Type} `{Countable PeerID}.

(** Keccak-256 ([sha3.NewLegacyKeccak256]) and libocr's
    [permutation.Permutation] are external. *)
Variable Keccak256 : list byte -> list byte.
Variable permutation_Permutation : Z -> list byte -> list Z.

Definition transmissionScheduleSeed (transmissionID : string) : list byte :=
  copy_into_zeroed 16 (Keccak256 (list_byte_of_string transmissionID)).

(** The loop [for i, peerID := range donPeerIDs]. *)
Fixpoint assign_delays (i : Z) (donPeerIDs : list PeerID) (schedule picked : list Z)
    (deltaStage : Duration) (m : gmap PeerID Duration)
  : outcome (gmap PeerID Duration) :=
  match donPeerIDs with
  | [] => Ret m
  | peerID :: rest =>
      match delayFor i schedule picked deltaStage with
      | Ret (Some delay) =>
          assign_delays (i + 1) rest schedule picked deltaStage (<[peerID := delay]> m)
      | Ret None =>
          assign_delays (i + 1) rest schedule picked deltaStage m
      | Error e => Error e
      | Panic => Panic
      end
  end.

Definition GetPeerIDToTransmissionDelaysForConfig (donPeerIDs : list PeerID)
    (transmissionID : string) (tc : TransmissionConfig)
  : outcome (gmap PeerID Duration) :=
  let donMemberCount := Z.of_nat (length donPeerIDs) in
  let key := transmissionScheduleSeed transmissionID in
  match createTransmissionSchedule (Schedule tc) donMemberCount with
  | Error err => Error err
  | Panic => Panic
  | Ret schedule =>
      let picked := permutation_Permutation donMemberCount key in
      assign_delays 0 donPeerIDs schedule picked (DeltaStage tc) ∅
  end.

End Scheduler.

(** The size of the population that a schedule shape covers. *)
Definition sum_ints (l : list Z) : Z := foldr Z.add 0 l.

(** The delay of the bucket [i]: [time.Duration(i) * deltaStage]. *)
Definition stage_delay (deltaStage : Duration) (i : Z) : Duration :=
  wrap64 (i * deltaStage).

End transmission.

(** ** Package [backoff] (github.com/jpillora/backoff)

    The counter of the retry loops.  The library works in [float64]; the
    durations are written here in integer nanoseconds, and the random
    fraction [rand.Float64()] is [rnd / 2^53] for an integer
    [0 <= rnd < 2^53]. *)

Module backoff.

Import time.

Record Backoff : Type := {
  attempt : Z;
  Factor : Z;
  Jitter : bool;
  Min : Duration;
  Max : Duration
}.

Definition with_attempt (n : Z) (b : Backoff) : Backoff :=
  {| attempt := n; Factor := Factor b; Jitter := Jitter b;
     Min := Min b; Max := Max b |}.

(** [const maxInt64 = float64(math.MaxInt64 - 512)] *)
Definition maxInt64 : Z := Go.maxInt64 - 512.

Definition ForAttempt (b : Backoff) (attempt : Z) (rnd : Z) : Duration :=
  let min := if Min b <=? 0 then 100 * Millisecond else Min b in
  let max := if Max b <=? 0 then 10 * Second else Max b in
  if max <=? min then max
  else
    let factor := if Factor b <=? 0 then 2 else Factor b in
    let minf := min in
    let durf := minf * factor ^ attempt in
    let durf := if Jitter b then rnd * (durf - minf) / 2 ^ 53 + minf else durf in
    if maxInt64 <? durf then max
    else if durf <? min then min
    else if max <? durf then max
    else durf.

(** [Duration]: the wait for the current attempt; the counter goes up. *)
Definition Duration (b : Backoff) (rnd : Z) : time.Duration * Backoff :=
  (ForAttempt b (attempt b) rnd, with_attempt (wrap_u64 (attempt b + 1)) b).

Definition Reset (b : Backoff) : Backoff := with_attempt 0 b.

(** A counter with a floor below its cap, the factor 2 and jitter. *)
Definition doubling (b : Backoff) : Prop :=
  0 < Min b /\ Min b < Max b /\ Max b <= maxInt64 /\
  Factor b = 2 /\ Jitter b = true.

End backoff.

(** ** Package [mercurytransmitter], [server.go] *)

Module mercurytransmitter.

Import time backoff.

(** *** Data *)

Record ReportInfo : Type := { ReportFormat : Z }.

Record ReportWithInfo : Type := {
  Report_Report : list byte;
  Info : ReportInfo
}.

Definition AttributedOnchainSignature : Type := (list byte * Z)%type.

Record Transmission : Type := {
  ConfigDigest : list byte;
  SeqNr : Z;
  Report : ReportWithInfo;
  Sigs : list AttributedOnchainSignature
}.

(** [pb.TransmitRequest] and [pb.TransmitResponse]. *)
Record TransmitRequest : Type := {
  Payload : list byte;
  req_ReportFormat : Z
}.

Record TransmitResponse : Type := {
  Code : Z;
  Error : string
}.

Inductive level : Type := Debug | ErrorLevel | Critical.

(** What the loops do to their collaborators, oldest first.
    [EvHandOver] is a send on [s.deleteQueue] that a receiver parked on the
    channel takes directly, without passing through the buffer. *)
Inductive event : Type :=
| EvClientTransmit (req : TransmitRequest)
| EvPush (t : Transmission)
| EvOrmDelete (hash : list byte)
| EvAfter (d : time.Duration)
| EvHandOver (hash : list byte)
| EvLog (lvl : level) (msg : string).

(** The fields of [server] that the two loops read and write.  The
    prometheus counters are counts; [transmitServerErrorCount] is the
    package-level counter vector, by the label [code]; the two busy
    counters are [atomic.Int32]. *)
Record server : Type := {
  deleteQueue : list (list byte);
  deleteQueue_cap : nat;
  transmitSuccessCount : Z;
  transmitDuplicateCount : Z;
  transmitConnectionErrorCount : Z;
  transmitQueueDeleteErrorCount : Z;
  transmitServerErrorCount : gmap Z Z;
  transmitThreadBusyCount : Z;
  deleteThreadBusyCount : Z;
  trace : list event
}.

Definition set_deleteQueue (q : list (list byte)) (s : server) : server :=
  {| deleteQueue := q; deleteQueue_cap := deleteQueue_cap s;
     transmitSuccessCount := transmitSuccessCount s;
     transmitDuplicateCount := transmitDuplicateCount s;
     transmitConnectionErrorCount := transmitConnectionErrorCount s;
     transmitQueueDeleteErrorCount := transmitQueueDeleteErrorCount s;
     transmitServerErrorCount := transmitServerErrorCount s;
     transmitThreadBusyCount := transmitThreadBusyCount s;
     deleteThreadBusyCount := deleteThreadBusyCount s;
     trace := trace s |}.

Definition inc_transmitSuccessCount (s : server) : server :=
  {| deleteQueue := deleteQueue s; deleteQueue_cap := deleteQueue_cap s;
     transmitSuccessCount := transmitSuccessCount s + 1;
     transmitDuplicateCount := transmitDuplicateCount s;
     transmitConnectionErrorCount := transmitConnectionErrorCount s;
     transmitQueueDeleteErrorCount := transmitQueueDeleteErrorCount s;
     transmitServerErrorCount := transmitServerErrorCount s;
     transmitThreadBusyCount := transmitThreadBusyCount s;
     deleteThreadBusyCount := deleteThreadBusyCount s;
     trace := trace s |}.

Definition inc_transmitDuplicateCount (s : server) : server :=
  {| deleteQueue := deleteQueue s; deleteQueue_cap := deleteQueue_cap s;
     transmitSuccessCount := transmitSuccessCount s;
     transmitDuplicateCount := transmitDuplicateCount s + 1;
     transmitConnectionErrorCount := transmitConnectionErrorCount s;
     transmitQueueDeleteErrorCount := transmitQueueDeleteErrorCount s;
     transmitServerErrorCount := transmitServerErrorCount s;
     transmitThreadBusyCount := transmitThreadBusyCount s;
     deleteThreadBusyCount := deleteThreadBusyCount s;
     trace := trace s |}.

Definition inc_transmitConnectionErrorCount (s : server) : server :=
  {| deleteQueue := deleteQueue s; deleteQueue_cap := deleteQueue_cap s;
     transmitSuccessCount := transmitSuccessCount s;
     transmitDuplicateCount := transmitDuplicateCount s;
     transmitConnectionErrorCount := transmitConnectionErrorCount s + 1;
     transmitQueueDeleteErrorCount := transmitQueueDeleteErrorCount s;
     transmitServerErrorCount := transmitServerErrorCount s;
     transmitThreadBusyCount := transmitThreadBusyCount s;
     deleteThreadBusyCount := deleteThreadBusyCount s;
     trace := trace s |}.

Definition inc_transmitQueueDeleteErrorCount (s : server) : server :=
  {| deleteQueue := deleteQueue s; deleteQueue_cap := deleteQueue_cap s;
     transmitSuccessCount := transmitSuccessCount s;
     transmitDuplicateCount := transmitDuplicateCount s;
     transmitConnectionErrorCount := transmitConnectionErrorCount s;
     transmitQueueDeleteErrorCount := transmitQueueDeleteErrorCount s + 1;
     transmitServerErrorCount := transmitServerErrorCount s;
     transmitThreadBusyCount := transmitThreadBusyCount s;
     deleteThreadBusyCount := deleteThreadBusyCount s;
     trace := trace s |}.

(** [promTransmitServerErrorCount.WithLabelValues(donIDStr, s.url, code).Inc()] *)
Definition inc_transmitServerErrorCount (code : Z) (s : server) : server :=
  {| deleteQueue := deleteQueue s; deleteQueue_cap := deleteQueue_cap s;
     transmitSuccessCount := transmitSuccessCount s;
     transmitDuplicateCount := transmitDuplicateCount s;
     transmitConnectionErrorCount := transmitConnectionErrorCount s;
     transmitQueueDeleteErrorCount := transmitQueueDeleteErrorCount s;
     transmitServerErrorCount :=
       <[code := default 0 (transmitServerErrorCount s !! code) + 1]>
         (transmitServerErrorCount s);
     transmitThreadBusyCount := transmitThreadBusyCount s;
     deleteThreadBusyCount := deleteThreadBusyCount s;
     trace := trace s |}.

(** [s.transmitThreadBusyCount.Add(n)] *)
Definition add_transmitThreadBusyCount (n : Z) (s : server) : server :=
  {| deleteQueue := deleteQueue s; deleteQueue_cap := deleteQueue_cap s;
     transmitSuccessCount := transmitSuccessCount s;
     transmitDuplicateCount := transmitDuplicateCount s;
     transmitConnectionErrorCount := transmitConnectionErrorCount s;
     transmitQueueDeleteErrorCount := transmitQueueDeleteErrorCount s;
     transmitServerErrorCount := transmitServerErrorCount s;
     transmitThreadBusyCount := wrap32 (transmitThreadBusyCount s + n);
     deleteThreadBusyCount := deleteThreadBusyCount s;
     trace := trace s |}.

(** [s.deleteThreadBusyCount.Add(n)] *)
Definition add_deleteThreadBusyCount (n : Z) (s : server) : server :=
  {| deleteQueue := deleteQueue s; deleteQueue_cap := deleteQueue_cap s;
     transmitSuccessCount := transmitSuccessCount s;
     transmitDuplicateCount := transmitDuplicateCount s;
     transmitConnectionErrorCount := transmitConnectionErrorCount s;
     transmitQueueDeleteErrorCount := transmitQueueDeleteErrorCount s;
     transmitServerErrorCount := transmitServerErrorCount s;
     transmitThreadBusyCount := transmitThreadBusyCount s;
     deleteThreadBusyCount := wrap32 (deleteThreadBusyCount s + n);
     trace := trace s |}.

(** A call to a collaborator, or a log line, is appended to the trace. *)
Definition emit (evs : list event) (s : server) : server :=
  {| deleteQueue := deleteQueue s; deleteQueue_cap := deleteQueue_cap s;
     transmitSuccessCount := transmitSuccessCount s;
     transmitDuplicateCount := transmitDuplicateCount s;
     transmitConnectionErrorCount := transmitConnectionErrorCount s;
     transmitQueueDeleteErrorCount := transmitQueueDeleteErrorCount s;
     transmitServerErrorCount := transmitServerErrorCount s;
     transmitThreadBusyCount := transmitThreadBusyCount s;
     deleteThreadBusyCount := deleteThreadBusyCount s;
     trace := trace s ++ evs |}.

(** The value of the closure of [runQueueLoop] ([true]: go on,
    [false]: leave the loop), or a panic. *)
Inductive verdict : Type := Continue | Exit | Panicked.

(** What the collaborators answer during one round of [runQueueLoop]. *)
Record queue_env : Type := {
  (** [s.q.BlockingPop()]; [None] is nil: the queue was closed *)
  q_BlockingPop : option Transmission;
  (** [s.c.Transmit(ctx, req)], when it is called *)
  c_Transmit : option TransmitResponse * option string;
  (** [ctx.Err() != nil] once [transmit] is back *)
  ctx_Err : bool;
  (** [s.q.Push(t)], when it is called *)
  q_Push : bool;
  (** the [select] of the wait: [true] when [stopCh] comes first *)
  q_stopCh : bool;
  (** the random fraction taken by [b.Duration()] *)
  q_rand : Z;
  (** whether the delete loop is parked on [<-s.deleteQueue] when the
      send of the hash is tried *)
  deleteQueue_receiver : bool
}.

(** What the collaborators answer during one attempt of the inner loop
    of [runDeleteQueueLoop]. *)
Record delete_env : Type := {
  (** [s.pm.orm.Delete(ctx, [][32]byte{hash})]; [None] is a nil error *)
  orm_Delete : option string;
  (** the [select] of the wait: [true] when [stopCh] comes first *)
  d_stopCh : bool;
  d_rand : Z
}.

(** One round of the outer loop: which case of the outer [select] fires,
    and the answers for the attempts on the received hash. *)
Record delete_round : Type := {
  stop_first : bool;
  attempts : list delete_env
}.

(** How the inner loop of [runDeleteQueueLoop] ends. *)
Inductive delete_result : Type :=
| Deleted (s : server) (b : Backoff)
| Stopped (s : server) (b : Backoff)
| Retrying (s : server) (b : Backoff).

(** How a run of a loop ends: it returned, it panicked, or it is still
    in the loop when the answers of the environment end. *)
Inductive run_end : Type := Returned | Crashed | Running.

Section Loops.

(** [llotypes.ReportFormatJSON], [llotypes.ReportFormatEVMPremiumLegacy]
    (chainlink-common) and the constant [DuplicateReport] of the package,
    declared outside [server.go]. *)
Variable ReportFormatJSON : Z.
Variable ReportFormatEVMPremiumLegacy : Z.
Variable DuplicateReport : Z.

(** [t.Hash()] and the two packers. *)
Variable Hash : Transmission -> list byte.
Variable jsonPacker_Pack :
  list byte -> Z -> list byte -> list AttributedOnchainSignature ->
  list byte * option string.
Variable evmPremiumLegacyPacker_Pack :
  list byte -> Z -> list byte -> list AttributedOnchainSignature ->
  list byte * option string.

(** [transmit]: the request, the response, the error, and the network
    call when one is made. *)
Definition transmit (e : queue_env) (t : Transmission)
  : option TransmitRequest * option TransmitResponse * option string
    * list event :=
  let format := ReportFormat (Info (Report t)) in
  let packed :=
    if format =? ReportFormatJSON then
      Some (jsonPacker_Pack (ConfigDigest t) (SeqNr t)
              (Report_Report (Report t)) (Sigs t))
    else if format =? ReportFormatEVMPremiumLegacy then
      Some (evmPremiumLegacyPacker_Pack (ConfigDigest t) (SeqNr t)
              (Report_Report (Report t)) (Sigs t))
    else None in
  match packed with
  | None =>
      (None, None,
       Some "Transmit failed; don't know how to Pack unsupported report format",
       [])
  | Some (_, Some err) =>
      (None, None, Some ("Transmit: encode failed; " +:+ err), [])
  | Some (payload, None) =>
      let req := {| Payload := payload; req_ReportFormat := format |} in
      let '(resp, err) := c_Transmit e in
      (Some req, resp, err, [EvClientTransmit req])
  end.

(** The non-blocking send [select { case s.deleteQueue <- t.Hash(): default: ... }].
    A send on a Go channel proceeds when a receiver is parked on the channel
    (the value goes to it directly; on a channel of capacity 0 this is the
    only way) or when the buffer has room; otherwise the [default] case is
    taken. *)
Definition request_delete (e : queue_env) (t : Transmission) (s : server) : server :=
  if deleteQueue_receiver e then emit [EvHandOver (Hash t)] s
  else if (length (deleteQueue s) <? deleteQueue_cap s)%nat
  then set_deleteQueue (deleteQueue s ++ [Hash t]) s
  else emit [EvLog Critical "Delete queue is full"] s.

(** The closure called by [runQueueLoop] on every round.  The deferred
    [s.transmitThreadBusyCount.Add(-1)] runs on every way out once a
    record was popped. *)
Definition queueLoop_round (e : queue_env) (s : server) (b : Backoff)
  : verdict * server * Backoff :=
  match q_BlockingPop e with
  | None =>
      (* queue was closed *)
      (Exit, s, b)
  | Some t =>
      let s := add_transmitThreadBusyCount 1 s in
      let '(req, res, err, calls) := transmit e t in
      let s := emit calls s in
      if ctx_Err e then
        (* only canceled on transmitter close so we can exit *)
        (Exit, add_transmitThreadBusyCount (-1) s, b)
      else
        match err with
        | Some _ =>
            let s := inc_transmitConnectionErrorCount s in
            match req with
            | None =>
                (* req.Payload on the nil request *)
                (Panicked, add_transmitThreadBusyCount (-1) s, b)
            | Some _ =>
                let s := emit [EvLog ErrorLevel "Transmit report failed"] s in
                let s := emit [EvPush t] s in
                if negb (q_Push e) then
                  let s := emit [EvLog ErrorLevel
                    "Failed to push report to transmit queue; queue is closed"] s in
                  (Exit, add_transmitThreadBusyCount (-1) s, b)
                else
                  (* Wait a backoff duration before pulling the most
                     recent transmission *)
                  let '(d, b) := Duration b (q_rand e) in
                  let s := emit [EvAfter d] s in
                  if q_stopCh e
                  then (Exit, add_transmitThreadBusyCount (-1) s, b)
                  else (Continue, add_transmitThreadBusyCount (-1) s, b)
            end
        | None =>
            let b := Reset b in
            match res, req with
            | Some res, Some _ =>
                let s :=
                  if String.eqb (Error res) "" then
                    emit [EvLog Debug "Transmit report success"]
                      (inc_transmitSuccessCount s)
                  else if Code res =? DuplicateReport then
                    emit [EvLog Debug "Transmit report success; duplicate report"]
                      (inc_transmitDuplicateCount (inc_transmitSuccessCount s))
                  else
                    emit [EvLog ErrorLevel
                      "Transmit report failed; mercury server returned error"]
                      (inc_transmitServerErrorCount (Code res) s) in
                let s := request_delete e t s in
                (Continue, add_transmitThreadBusyCount (-1) s, b)
            | _, _ =>
                (* res.Error on a nil response; the log lines read
                   req.ReportFormat, but transmit returns a request
                   whenever it returns no error *)
                (Panicked, add_transmitThreadBusyCount (-1) s, b)
            end
        end
  end.

(** The backoff of [runQueueLoop]: 5ms, 10ms, 20ms, 40ms etc *)
Definition queue_backoff : Backoff :=
  {| attempt := 0; Factor := 2; Jitter := true;
     Min := 5 * Millisecond; Max := 1 * Second |}.

(** [for cont { cont = func() bool {...}() }], one answer record per round. *)
Fixpoint queueLoop (envs : list queue_env) (s : server) (b : Backoff)
  : run_end * server * Backoff :=
  match envs with
  | [] => (Running, s, b)
  | e :: envs' =>
      match queueLoop_round e s b with
      | (Continue, s', b') => queueLoop envs' s' b'
      | (Exit, s', b') => (Returned, s', b')
      | (Panicked, s', b') => (Crashed, s', b')
      end
  end.

Definition runQueueLoop (envs : list queue_env) (s : server)
  : run_end * server * Backoff :=
  queueLoop envs s queue_backoff.

(** The backoff of [runDeleteQueueLoop]. *)
Definition delete_backoff : Backoff :=
  {| attempt := 0; Factor := 2; Jitter := true;
     Min := 1 * Second; Max := 120 * Second |}.

(** The inner [for] of [runDeleteQueueLoop] on one hash, one answer
    record per attempt. *)
Fixpoint delete_attempts (envs : list delete_env) (hash : list byte)
    (s : server) (b : Backoff) : delete_result :=
  match envs with
  | [] => Retrying s b
  | e :: envs' =>
      let s := add_deleteThreadBusyCount 1 s in
      let s := emit [EvOrmDelete hash] s in
      match orm_Delete e with
      | Some _ =>
          let s := emit [EvLog ErrorLevel "Failed to delete transmission record"] s in
          let s := inc_transmitQueueDeleteErrorCount s in
          let '(d, b) := Duration b (d_rand e) in
          let s := emit [EvAfter d] s in
          if d_stopCh e then
            (* abort and return immediately on stop even if items
               remain in queue *)
            Stopped (add_deleteThreadBusyCount (-1) s) b
          else
            (* Wait a backoff duration before trying to delete again *)
            delete_attempts envs' hash s b
      | None => Deleted s b
      end
  end.

(** The outer [for { select {...} }] of [runDeleteQueueLoop].  A round
    whose [select] finds the channel empty and no stop stays blocked. *)
Fixpoint deleteQueueLoop (rounds : list delete_round) (s : server) (b : Backoff)
  : run_end * server * Backoff :=
  match rounds with
  | [] => (Running, s, b)
  | r :: rounds' =>
      if stop_first r then (Returned, s, b)
      else
        match deleteQueue s with
        | [] => (Running, s, b)
        | hash :: rest =>
            let s := set_deleteQueue rest s in
            match delete_attempts (attempts r) hash s b with
            | Deleted s b =>
                (* success *)
                let b := Reset b in
                let s := add_deleteThreadBusyCount (-1) s in
                deleteQueueLoop rounds' s b
            | Stopped s b => (Returned, s, b)
            | Retrying s b => (Running, s, b)
            end
        end
  end.

Definition runDeleteQueueLoop (rounds : list delete_round) (s : server)
  : run_end * server * Backoff :=
  deleteQueueLoop rounds s delete_backoff.

End Loops.

(** What a trace says about each collaborator. *)
Definition waits (tr : list event) : list time.Duration :=
  omap (fun ev => match ev with EvAfter d => Some d | _ => None end) tr.

Definition orm_deletes (tr : list event) : list (list byte) :=
  omap (fun ev => match ev with EvOrmDelete h => Some h | _ => None end) tr.

Definition pushes (tr : list event) : list Transmission :=
  omap (fun ev => match ev with EvPush t => Some t | _ => None end) tr.

Definition network_calls (tr : list event) : list TransmitRequest :=
  omap (fun ev => match ev with EvClientTransmit r => Some r | _ => None end) tr.

Definition handed_over (tr : list event) : list (list byte) :=
  omap (fun ev => match ev with EvHandOver h => Some h | _ => None end) tr.

Definition critical_logs (tr : list event) : list string :=
  omap (fun ev => match ev with EvLog Critical msg => Some msg | _ => None end) tr.

(** An attempt of the delete loop that fails, with no stop during the
    wait and a random fraction in [0, 1). *)
Definition failed_attempt (e : delete_env) : Prop :=
  is_Some (orm_Delete e) /\ d_stopCh e = false /\ 0 <= d_rand e < 2 ^ 53.

End mercurytransmitter.

(** ** Sample instances

    Stand-ins for what the sections take as parameters, for the places
    where the properties below are run on concrete inputs. *)

Module sample.

Import time transmission mercurytransmitter.

(** A request configuration that is already decoded. *)
Definition UnwrapTo (config : rawConfig) : outcome rawConfig := Ret config.

(** Stands in for Keccak-256: the input itself. *)
Definition digest (bs : list byte) : list byte := bs.

(** Stands in for libocr's permutation: [n-1, ..., 1, 0]. *)
Definition Permutation (n : Z) (key : list byte) : list Z := reverse (seqZ 0 n).

Definition peers : list nat := [10; 20; 30]%nat.

Definition oneAtATime_1s : TransmissionConfig :=
  {| Schedule := Schedule_OneAtATime; DeltaStage := 1 * Second |}.

Definition allAtOnce_1s : TransmissionConfig :=
  {| Schedule := Schedule_AllAtOnce; DeltaStage := 1 * Second |}.

Definition negative_stage : rawConfig :=
  {| raw_DeltaStage := "-5s"; raw_Schedule := "oneAtATime" |}.

Definition schedule_only : rawConfig :=
  {| raw_DeltaStage := ""; raw_Schedule := "oneAtATime" |}.

(** The report formats and the code of a duplicate; a hash and a packer
    that hand back what they are given. *)
Definition ReportFormatEVMPremiumLegacy : Z := 1.
Definition ReportFormatJSON : Z := 2.
Definition DuplicateReport : Z := 2.

Definition Hash (t : Transmission) : list byte := ConfigDigest t.

Definition Pack (digest : list byte) (seqNr : Z) (report : list byte)
    (sigs : list AttributedOnchainSignature) : list byte * option string :=
  (report, None).

Definition record (format : Z) : Transmission :=
  {| ConfigDigest := [x01]; SeqNr := 7;
     Report := {| Report_Report := [x2a]; Info := {| ReportFormat := format |} |};
     Sigs := [] |}.

Definition idle_server : server :=
  {| deleteQueue := []; deleteQueue_cap := 2;
     transmitSuccessCount := 0; transmitDuplicateCount := 0;
     transmitConnectionErrorCount := 0; transmitQueueDeleteErrorCount := 0;
     transmitServerErrorCount := ∅;
     transmitThreadBusyCount := 0; deleteThreadBusyCount := 0;
     trace := [] |}.

(** A round in which record of the given format is popped and the
    collaborators answer as said. *)
Definition round (format : Z) (reply : option TransmitResponse * option string)
    (push_ok : bool) : queue_env :=
  {| q_BlockingPop := Some (record format); c_Transmit := reply;
     ctx_Err := false; q_Push := push_ok; q_stopCh := false; q_rand := 2 ^ 52;
     deleteQueue_receiver := false |}.

Definition unsupported_format : Z := 99.

Definition connection_reset : option TransmitResponse * option string :=
  (None, Some "connection reset").

Definition duplicate_reply : TransmitResponse :=
  {| Code := DuplicateReport; Error := "duplicate report" |}.

Definition duplicate_code_no_error : TransmitResponse :=
  {| Code := DuplicateReport; Error := "" |}.

Definition server_error_reply : TransmitResponse :=
  {| Code := 1; Error := "bad request" |}.

Definition request (format : Z) : TransmitRequest :=
  {| Payload := [x2a]; req_ReportFormat := format |}.

(** One round of the transmit loop of the idle server, at the start of
    the loop. *)
Definition first_round (e : queue_env) : verdict * server * backoff.Backoff :=
  queueLoop_round ReportFormatJSON ReportFormatEVMPremiumLegacy DuplicateReport
    Hash Pack Pack e idle_server queue_backoff.

(** A server with one deletion requested. *)
Definition server_with_request : server :=
  set_deleteQueue [[x01]] idle_server.

Definition failing_delete : delete_env :=
  {| orm_Delete := Some "db disconnected"; d_stopCh := false; d_rand := 2 ^ 52 |}.

Definition working_delete : delete_env :=
  {| orm_Delete := None; d_stopCh := false; d_rand := 0 |}.

End sample.

(** ** Package [transmission]: the entry point *)

Module transmission_request.

Import time transmission.

(** The part of [capabilities.CapabilityRequest] that the package reads. *)
Record RequestMetadata : Type := { WorkflowExecutionID : string }.

Record CapabilityRequest (ValuesMap : Type) : Type := {
  Config : ValuesMap;
  Metadata : RequestMetadata
}.
Arguments Config {ValuesMap} _.
Arguments Metadata {ValuesMap} _.

Section Request.

Context {PeerID : Type} `{Countable PeerID} {ValuesMap : Type}.

Variable Map_UnwrapTo : ValuesMap -> outcome rawConfig.

(** [validation.ValidateWorkflowOrExecutionID] is declared in package
    [capabilities/validation]; [None] is a nil error. *)
Variable validation_ValidateWorkflowOrExecutionID : string -> option string.

Variable Keccak256 : list byte -> list byte.
Variable permutation_Permutation : Z -> list byte -> list Z.

Definition GetPeerIDToTransmissionDelay (donPeerIDs : list PeerID)
    (req : CapabilityRequest ValuesMap) : outcome (gmap PeerID Duration) :=
  match ExtractTransmissionConfig Map_UnwrapTo (Config req) with
  | Error err =>
      Error ("failed to extract transmission config from request: " +:+ err)
  | Panic => Panic
  | Ret tc =>
      let workflowExecutionID := WorkflowExecutionID (Metadata req) in
      match validation_ValidateWorkflowOrExecutionID workflowExecutionID with
      | Some err => Error ("workflow or execution ID is invalid: " +:+ err)
      | None =>
          GetPeerIDToTransmissionDelaysForConfig Keccak256 permutation_Permutation
            donPeerIDs workflowExecutionID tc
      end
  end.

End Request.

End transmission_request.

(** ** Rounds of the delivery loops, by what the environment answers *)

Module rounds.

Import time backoff mercurytransmitter.

(** The values of an [atomic.Int32]. *)
Definition is_int32 (z : Z) : Prop := - 2 ^ 31 <= z < 2 ^ 31.

Section Rounds.

Variables ReportFormatJSON ReportFormatEVMPremiumLegacy : Z.
Variables jsonPacker_Pack evmPremiumLegacyPacker_Pack :
  list byte -> Z -> list byte -> list AttributedOnchainSignature ->
  list byte * option string.

(** A round in which the record [t] is popped, the send fails on the
    network, the push is accepted and no stop comes during the wait. *)
Definition transport_error (e : queue_env) (t : Transmission) : Prop :=
  q_BlockingPop e = Some t /\
  (exists req res err,
     transmit ReportFormatJSON ReportFormatEVMPremiumLegacy
       jsonPacker_Pack evmPremiumLegacyPacker_Pack e t
     = (Some req, res, Some err, [EvClientTransmit req])) /\
  ctx_Err e = false /\ q_Push e = true /\ q_stopCh e = false /\
  0 <= q_rand e < 2 ^ 53.

(** A round in which the record [t] is popped and the server answers
    [res], the context not being cancelled. *)
Definition replied (e : queue_env) (t : Transmission) (res : TransmitResponse)
  : Prop :=
  q_BlockingPop e = Some t /\
  (exists req,
     transmit ReportFormatJSON ReportFormatEVMPremiumLegacy
       jsonPacker_Pack evmPremiumLegacyPacker_Pack e t
     = (Some req, Some res, None, [EvClientTransmit req])) /\
  ctx_Err e = false.

End Rounds.

(** A round of the delete loop that takes a hash and deletes it at the
    first attempt. *)
Definition first_try (r : delete_round) : Prop :=
  stop_first r = false /\
  exists ok rest, attempts r = ok :: rest /\ orm_Delete ok = None.

(** An attempt of the delete loop that fails and is cut short by the stop. *)
Definition stopped_attempt (e : delete_env) : Prop :=
  is_Some (orm_Delete e) /\ d_stopCh e = true.

End rounds.

(** ** More sample inputs *)

Module sample_more.

Import time transmission transmission_request mercurytransmitter.

Definition long_id : string := "workflow-execution-0001".

Definition picked : list Z := [2; 0; 1].

Definition shape : list Z := [1; 2].

Definition roundRobin_1s : TransmissionConfig :=
  {| Schedule := "roundRobin"; DeltaStage := 1 * Second |}.

Definition peers_with_duplicate : list nat := [10; 20; 10]%nat.

(** A validator that accepts every identifier. *)
Definition any_id (id : string) : option string := None.

Definition request_without_config : CapabilityRequest rawConfig :=
  {| Config := {| raw_DeltaStage := ""; raw_Schedule := "" |};
     Metadata := {| WorkflowExecutionID := "exec-1" |} |}.

Definition stage_only : rawConfig :=
  {| raw_DeltaStage := "1s"; raw_Schedule := "" |}.

Definition request_with_stage_only : CapabilityRequest rawConfig :=
  {| Config := stage_only; Metadata := {| WorkflowExecutionID := "exec-1" |} |}.

Definition json_record : Transmission := sample.record sample.ReportFormatJSON.

Definition failing_round : queue_env :=
  sample.round sample.ReportFormatJSON sample.connection_reset true.

Definition duplicate_round : queue_env :=
  sample.round sample.ReportFormatJSON (Some sample.duplicate_reply, None) true.

Definition server_error_round : queue_env :=
  sample.round sample.ReportFormatJSON (Some sample.server_error_reply, None) true.

Definition unsupported_round : queue_env :=
  sample.round sample.unsupported_format (None, None) true.

(** The server acknowledged, but the loop was stopped meanwhile. *)
Definition cancelled_round : queue_env :=
  {| q_BlockingPop := Some json_record;
     c_Transmit := (Some sample.duplicate_reply, None);
     ctx_Err := true; q_Push := true; q_stopCh := true; q_rand := 0;
     deleteQueue_receiver := false |}.

(** A run of the transmit loop of the idle server. *)
Definition run (envs : list queue_env) : run_end * server * backoff.Backoff :=
  queueLoop sample.ReportFormatJSON sample.ReportFormatEVMPremiumLegacy
    sample.DuplicateReport sample.Hash sample.Pack sample.Pack
    envs sample.idle_server queue_backoff.

(** A server whose delete channel has no buffer, and a round in which
    the server replies while the delete loop is parked on this channel. *)
Definition unbuffered_server : server :=
  {| deleteQueue := []; deleteQueue_cap := 0;
     transmitSuccessCount := 0; transmitDuplicateCount := 0;
     transmitConnectionErrorCount := 0; transmitQueueDeleteErrorCount := 0;
     transmitServerErrorCount := ∅;
     transmitThreadBusyCount := 0; deleteThreadBusyCount := 0;
     trace := [] |}.

Definition parked_round : queue_env :=
  {| q_BlockingPop := Some json_record;
     c_Transmit := (Some sample.duplicate_reply, None);
     ctx_Err := false; q_Push := true; q_stopCh := false; q_rand := 0;
     deleteQueue_receiver := true |}.

Definition unbuffered_round (e : queue_env) : verdict * server * backoff.Backoff :=
  queueLoop_round sample.ReportFormatJSON sample.ReportFormatEVMPremiumLegacy
    sample.DuplicateReport sample.Hash sample.Pack sample.Pack
    e unbuffered_server queue_backoff.

Definition stopping_delete : delete_env :=
  {| orm_Delete := Some "db disconnected"; d_stopCh := true; d_rand := 0 |}.

Definition easy_round : delete_round :=
  {| stop_first := false; attempts := [sample.working_delete] |}.

End sample_more.

(** * Properties *)

(** ** Integers *)

Section GoFacts.

Lemma wrap64_id z : is_int64 z -> wrap64 z = z.
Proof.
  unfold is_int64, wrap64, wrap. intros Hz.
  change (2 ^ (64 - 1)) with (2 ^ 63). change (2 ^ 64) with (2 * 2 ^ 63).
  rewrite Z.mod_small by lia. lia.
Qed.

Lemma wrap64_range z : is_int64 (wrap64 z).
Proof.
  unfold is_int64, wrap64, wrap.
  change (2 ^ (64 - 1)) with (2 ^ 63).
  pose proof (Z.mod_pos_bound (z + 2 ^ 63) (2 ^ 64) ltac:(lia)) as Hb.
  change (2 ^ 64) with (2 * 2 ^ 63) in *. lia.
Qed.

Lemma index_lookup {A} (l : list A) (i : Z) (x : A) :
  0 <= i -> l !! Z.to_nat i = Some x -> index l i = Ret x.
Proof.
  intros Hi Hl. unfold index.
  destruct (Z.ltb_spec i 0) as [?|_]; [lia|]. by rewrite Hl.
Qed.

End GoFacts.

(** ** Durations *)

Section ParseDurationFacts.

Import time.

Example ParseDuration_minus_5s : ParseDuration "-5s" = Ret (-5 * Second).
Proof. vm_compute. reflexivity. Qed.

Example ParseDuration_1h30m : ParseDuration "1h30m" = Ret (Hour + 30 * Minute).
Proof. vm_compute. reflexivity. Qed.

Example ParseDuration_100ms : ParseDuration "100ms" = Ret (100 * Millisecond).
Proof. vm_compute. reflexivity. Qed.

Example ParseDuration_fraction : ParseDuration "1.5s" = Ret (1500 * Millisecond).
Proof. vm_compute. reflexivity. Qed.

Example ParseDuration_zero : ParseDuration "0" = Ret 0.
Proof. vm_compute. reflexivity. Qed.

Example ParseDuration_no_unit :
  ParseDuration "5" = Error "time: missing unit in duration".
Proof. vm_compute. reflexivity. Qed.

Example ParseDuration_empty : ParseDuration "" = Error invalid_duration.
Proof. vm_compute. reflexivity. Qed.

Lemma leadingInt_length (s : string) :
  forall x v r, leadingInt x s = Some (v, r) -> (String.length r <= String.length s)%nat.
Proof.
  induction s as [|c s IH]; intros x v r Hl; cbn in Hl.
  - injection Hl as <- <-. done.
  - destruct (is_digit c).
    + destruct (2 ^ 63 / 10 <? x); [done|].
      destruct (2 ^ 63 <? wrap_u64 (x * 10 + digit_val c)); [done|].
      apply IH in Hl. cbn. lia.
    + injection Hl as <- <-. done.
Qed.

Lemma leadingFraction_length (s : string) :
  forall x scale overflow f scale' r,
    leadingFraction x scale overflow s = (f, scale', r) ->
    (String.length r <= String.length s)%nat.
Proof.
  induction s as [|c s IH]; intros x scale overflow f scale' r Hl; cbn in Hl.
  - injection Hl as <- <- <-. done.
  - destruct (is_digit c).
    + destruct overflow; [apply IH in Hl; cbn; lia|].
      destruct ((2 ^ 63 - 1) / 10 <? x); [apply IH in Hl; cbn; lia|].
      destruct (2 ^ 63 <? wrap_u64 (x * 10 + digit_val c));
        apply IH in Hl; cbn; lia.
    + injection Hl as <- <- <-. done.
Qed.

Lemma span_unit_length (s : string) :
  forall u r, span_unit s = (u, r) ->
    (String.length u + String.length r = String.length s)%nat.
Proof.
  induction s as [|c s IH]; intros u r Hs; cbn in Hs.
  - injection Hs as <- <-. done.
  - destruct (is_dot c || is_digit c).
    + injection Hs as <- <-. done.
    + destruct (span_unit s) as [u' r'] eqn:Hrec.
      injection Hs as <- <-. specialize (IH u' r' eq_refl). cbn. lia.
Qed.

(** Every round of the loop of [ParseDuration] consumes a character: the
    rounds that the model allows are never used up. *)
Lemma parse_groups_fuel (fuel1 : nat) :
  forall fuel2 d s,
    (String.length s < fuel1)%nat -> (String.length s < fuel2)%nat ->
    parse_groups fuel1 d s = parse_groups fuel2 d s.
Proof.
  induction fuel1 as [|fuel1 IH]; intros fuel2 d s H1 H2; [lia|].
  destruct fuel2 as [|fuel2]; [lia|].
  cbn [parse_groups]. destruct s as [|c s']; [done|].
  destruct (negb (is_dot c || is_digit c)); [done|].
  destruct (leadingInt 0 (String c s')) as [[v s1]|] eqn:Hint; [|done].
  apply leadingInt_length in Hint.
  assert (forall f scale s2 post,
            (String.length s2 <= String.length s1)%nat ->
            (if negb (negb (String.length (String c s') =? String.length s1)%nat)
                && negb post
             then Error invalid_duration
             else
               let '(u, s3) := span_unit s2 in
               if (String.length u =? 0)%nat
               then Error "time: missing unit in duration"
               else
                 match unitMap u with
                 | None => Error "time: unknown unit in duration"
                 | Some unit =>
                     if 2 ^ 63 / unit <? v then Error invalid_duration
                     else
                       let v1 := wrap_u64 (v * unit) in
                       let v2 :=
                         if 0 <? f then wrap_u64 (v1 + f * unit / scale) else v1 in
                       if (0 <? f) && (2 ^ 63 <? v2) then Error invalid_duration
                       else
                         let d' := wrap_u64 (d + v2) in
                         if 2 ^ 63 <? d' then Error invalid_duration
                         else parse_groups fuel1 d' s3
                 end)
            = (if negb (negb (String.length (String c s') =? String.length s1)%nat)
                  && negb post
               then Error invalid_duration
               else
                 let '(u, s3) := span_unit s2 in
                 if (String.length u =? 0)%nat
                 then Error "time: missing unit in duration"
                 else
                   match unitMap u with
                   | None => Error "time: unknown unit in duration"
                   | Some unit =>
                       if 2 ^ 63 / unit <? v then Error invalid_duration
                       else
                         let v1 := wrap_u64 (v * unit) in
                         let v2 :=
                           if 0 <? f then wrap_u64 (v1 + f * unit / scale) else v1 in
                         if (0 <? f) && (2 ^ 63 <? v2) then Error invalid_duration
                         else
                           let d' := wrap_u64 (d + v2) in
                           if 2 ^ 63 <? d' then Error invalid_duration
                           else parse_groups fuel2 d' s3
                   end)) as Hround.
  { intros f scale s2 post Hs2.
    destruct (negb (negb _) && negb post); [done|].
    destruct (span_unit s2) as [u s3] eqn:Hunit. apply span_unit_length in Hunit.
    destruct (Nat.eqb_spec (String.length u) 0) as [|Hu]; [done|].
    destruct (unitMap u) as [unit|]; [|done].
    destruct (2 ^ 63 / unit <? v); [done|]. cbv zeta.
    destruct ((0 <? f) && _); [done|].
    destruct (2 ^ 63 <? _); [done|].
    apply IH; lia. }
  destruct s1 as [|c1 r].
  - apply Hround. done.
  - destruct (is_dot c1).
    + destruct (leadingFraction 0 1 false r) as [[f scale] r'] eqn:Hfrac.
      apply leadingFraction_length in Hfrac.
      apply Hround. cbn [String.length]. lia.
    + apply Hround. done.
Qed.

End ParseDurationFacts.

(** ** The schedule *)

Section ScheduleFacts.

Import time transmission.

Lemma sum_ints_replicate (k : nat) : sum_ints (replicate k 1) = Z.of_nat k.
Proof.
  induction k as [|k IH]; [done|].
  cbn [replicate sum_ints foldr]. fold (sum_ints (replicate k 1)). lia.
Qed.

Lemma createTransmissionSchedule_allAtOnce N :
  createTransmissionSchedule Schedule_AllAtOnce N = Ret [N].
Proof. reflexivity. Qed.

Lemma createTransmissionSchedule_oneAtATime N :
  createTransmissionSchedule Schedule_OneAtATime N = Ret (replicate (Z.to_nat N) 1).
Proof. reflexivity. Qed.

Variables (position : Z) (picked : list Z) (rank : Z) (deltaStage : Duration).
Hypothesis Hrank : index picked position = Ret rank.

(** Whenever the buckets still to come cover the rank, [delayFor] stops
    in one of them. *)
Lemma delayFor_from_finds (schedule : list Z) :
  forall i acc,
    Forall (fun s => 0 <= s) schedule ->
    0 <= acc <= rank ->
    rank < acc + sum_ints schedule ->
    acc + sum_ints schedule < 2 ^ 63 ->
    exists j, i <= j < i + Z.of_nat (length schedule) /\
      delayFor_from i acc schedule position picked deltaStage
      = Ret (Some (stage_delay deltaStage j)).
Proof.
  induction schedule as [|s rest IH]; intros i acc Hpos Hacc Hlt Hmax.
  - cbn in Hlt. lia.
  - apply Forall_cons in Hpos as [Hs Hrest].
    cbn [sum_ints foldr] in Hlt, Hmax. fold (sum_ints rest) in Hlt, Hmax.
    assert (0 <= sum_ints rest) as Hsum.
    { clear -Hrest. induction Hrest; cbn; [lia|]. fold (sum_ints l). lia. }
    cbn [delayFor_from]. rewrite Hrank.
    rewrite wrap64_id by (unfold is_int64; lia).
    destruct (Z.ltb_spec rank (acc + s)) as [Hin|Hout].
    + exists i. split; [cbn [length]; lia|done].
    + destruct (IH (i + 1) (acc + s)) as (j & Hj & Heq); [done|lia|lia|lia|].
      exists j. split; [cbn [length]; lia|done].
Qed.

(** With buckets of size one, the bucket is the rank. *)
Lemma delayFor_from_ones (k : nat) :
  forall i,
    0 <= i <= rank ->
    rank < i + Z.of_nat k ->
    i + Z.of_nat k < 2 ^ 63 ->
    delayFor_from i i (replicate k 1) position picked deltaStage
    = Ret (Some (stage_delay deltaStage rank)).
Proof.
  induction k as [|k IH]; intros i Hi Hlt Hmax; [lia|].
  cbn [replicate delayFor_from]. rewrite Hrank.
  rewrite wrap64_id by (unfold is_int64; lia).
  destruct (Z.ltb_spec rank (i + 1)) as [Hin|Hout].
  - by replace i with rank by lia.
  - apply IH; lia.
Qed.

End ScheduleFacts.

(** ** The peer delay map *)

Section DelayMapFacts.

Import time transmission.

Context {PeerID : Type} `{Countable PeerID}.

Variables (schedule picked : list Z) (deltaStage : Duration).

(** The delay that the loop gives to the peer at each position. *)
Variable g : Z -> Duration.

(** When [delayFor] finds a bucket for every position, the loop returns
    a map that holds every peer; peers that are distinct and new to the
    map add one entry each, in order. *)
Lemma assign_delays_total (donPeerIDs : list PeerID) :
  forall (i : Z) (m0 : gmap PeerID Duration),
    (forall k, i <= k < i + Z.of_nat (length donPeerIDs) ->
       delayFor k schedule picked deltaStage = Ret (Some (g k))) ->
    exists m,
      assign_delays i donPeerIDs schedule picked deltaStage m0 = Ret m /\
      (forall p, p ∉ donPeerIDs -> m !! p = m0 !! p) /\
      (forall p, p ∈ donPeerIDs ->
         exists k, i <= k < i + Z.of_nat (length donPeerIDs) /\ m !! p = Some (g k)) /\
      (NoDup donPeerIDs -> (forall p, p ∈ donPeerIDs -> m0 !! p = None) ->
         map_to_list m ≡ₚ
           zip donPeerIDs (g <$> seqZ i (Z.of_nat (length donPeerIDs)))
           ++ map_to_list m0).
Proof.
  induction donPeerIDs as [|p rest IH]; intros i m0 Hfind.
  - exists m0. cbn. repeat split; try done.
    intros q Hq. by apply elem_of_nil in Hq.
  - cbn [assign_delays]. rewrite Hfind by (cbn [length]; lia).
    destruct (IH (i + 1) (<[p := g i]> m0)) as (m & Hm & Hout & Hin & Hlist).
    { intros k Hk. apply Hfind. cbn [length]. lia. }
    exists m. split; [done|]. split; [|split].
    + intros q Hq. apply not_elem_of_cons in Hq as [Hne Hq].
      rewrite Hout by done. by rewrite lookup_insert_ne.
    + intros q Hq. destruct (decide (q ∈ rest)) as [Hr|Hr].
      * destruct (Hin q Hr) as (k & Hk & Hlk).
        exists k. split; [cbn [length]; lia|done].
      * apply elem_of_cons in Hq as [->|Hq]; [|done].
        exists i. split; [cbn [length]; lia|].
        rewrite Hout by done. apply lookup_insert_eq.
    + intros Hnd Hfresh. apply NoDup_cons in Hnd as [Hp Hnd].
      rewrite Hlist; [|done|].
      2:{ intros q Hq. rewrite lookup_insert_ne; [|by intros ->].
          apply Hfresh. by apply elem_of_cons; right. }
      rewrite map_to_list_insert by (apply Hfresh; apply elem_of_cons; by left).
      cbn [length]. rewrite Nat2Z.inj_succ.
      rewrite (seqZ_cons i) by lia.
      rewrite Z.pred_succ. replace (Z.succ i) with (i + 1) by lia.
      cbn [fmap list_fmap zip zip_with].
      by rewrite <- Permutation_middle.
Qed.

End DelayMapFacts.

(** ** The scheduler *)

Section SchedulerClaims.

Import time transmission.

Context {PeerID : Type} `{Countable PeerID}.

Variable Keccak256 : list byte -> list byte.
Variable permutation_Permutation : Z -> list byte -> list Z.

(** The contract of libocr's [permutation.Permutation]: a permutation
    of [0..n). *)
Hypothesis Permutation_bijection :
  forall n key, 0 <= n -> permutation_Permutation n key ≡ₚ seqZ 0 n.

Abbreviation GetDelays :=
  (GetPeerIDToTransmissionDelaysForConfig Keccak256 permutation_Permutation).

Lemma picked_rank (n : Z) (key : list byte) (k : Z) :
  0 <= k < n ->
  exists rank,
    permutation_Permutation n key !! Z.to_nat k = Some rank /\ 0 <= rank < n.
Proof.
  intros Hk.
  pose proof (Permutation_bijection n key ltac:(lia)) as Hp.
  pose proof (Permutation_length Hp) as Hlen. rewrite length_seqZ in Hlen.
  destruct (lookup_lt_is_Some_2 (permutation_Permutation n key) (Z.to_nat k))
    as [rank Hr]; [lia|].
  exists rank. split; [done|].
  assert (rank ∈ seqZ 0 n) as Hin.
  { rewrite <- Hp. by eapply list_elem_of_lookup_2. }
  apply elem_of_seqZ in Hin. lia.
Qed.

(** The delays listed by position are the delays of the ranks. *)
Lemma delays_of_positions (n : Z) (key : list byte) (f : Z -> Duration) :
  0 <= n ->
  (fun k => f (default 0 (permutation_Permutation n key !! Z.to_nat k)))
    <$> seqZ 0 n
  = f <$> permutation_Permutation n key.
Proof.
  intros Hn.
  pose proof (Permutation_length (Permutation_bijection n key Hn)) as Hlen.
  rewrite length_seqZ in Hlen.
  apply list_eq. intros i. rewrite !list_lookup_fmap.
  destruct (decide (i < Z.to_nat n)%nat) as [Hi|Hi].
  - rewrite lookup_seqZ_lt by lia. cbn. rewrite Z.add_0_l, Nat2Z.id.
    destruct (lookup_lt_is_Some_2 (permutation_Permutation n key) i) as [r Hr];
      [lia|].
    by rewrite Hr.
  - rewrite (lookup_ge_None_2 (seqZ 0 n)) by (rewrite length_seqZ; lia).
    by rewrite (lookup_ge_None_2 (permutation_Permutation n key)) by lia.
Qed.

(** oneAtATime: the peer at a position waits for as many stages as its
    rank. *)
Lemma delayFor_oneAtATime (n : Z) (key : list byte) (d : Duration) (k : Z) :
  0 <= k < n -> n < 2 ^ 63 ->
  delayFor k (replicate (Z.to_nat n) 1) (permutation_Permutation n key) d
  = Ret (Some (stage_delay d
                 (default 0 (permutation_Permutation n key !! Z.to_nat k)))).
Proof.
  intros Hk Hn. destruct (picked_rank n key k Hk) as (rank & Hr & Hrange).
  rewrite Hr. change (default 0 (Some rank)) with rank. unfold delayFor.
  apply delayFor_from_ones; [by apply index_lookup; [lia|]|lia|lia|lia].
Qed.

(** allAtOnce: every position is in the bucket 0. *)
Lemma delayFor_allAtOnce (n : Z) (key : list byte) (d : Duration) (k : Z) :
  0 <= k < n -> n < 2 ^ 63 ->
  delayFor k [n] (permutation_Permutation n key) d = Ret (Some 0).
Proof.
  intros Hk Hn. destruct (picked_rank n key k Hk) as (rank & Hr & Hrange).
  unfold delayFor. cbn [delayFor_from].
  rewrite (index_lookup _ _ rank) by (done || lia).
  rewrite wrap64_id by (unfold is_int64; lia).
  destruct (Z.ltb_spec rank (0 + n)) as [_|?]; [|lia].
  by rewrite Z.mul_0_l.
Qed.

(** C1. For N distinct peers and the schedule oneAtATime with DeltaStage
    d, the call returns a map that holds every peer, has N entries, and
    whose delays, as a multiset, are the products of 0, 1, ..., N-1 with
    d ([time.Duration(i) * d], a 64-bit product); when (N-1)*d fits in
    64 bits these are exactly 0, d, 2d, ..., (N-1)d. *)
Theorem oneAtATime_delays_are_the_stages
    (donPeerIDs : list PeerID) (transmissionID : string) (tc : TransmissionConfig) :
  NoDup donPeerIDs ->
  Z.of_nat (length donPeerIDs) < 2 ^ 63 ->
  Schedule tc = Schedule_OneAtATime ->
  exists m,
    GetDelays donPeerIDs transmissionID tc = Ret m /\
    (forall p, p ∈ donPeerIDs -> is_Some (m !! p)) /\
    size m = length donPeerIDs /\
    (map_to_list m).*2 ≡ₚ
      stage_delay (DeltaStage tc) <$> seqZ 0 (Z.of_nat (length donPeerIDs)) /\
    (is_int64 ((Z.of_nat (length donPeerIDs) - 1) * DeltaStage tc) ->
     (map_to_list m).*2 ≡ₚ
       (fun i => i * DeltaStage tc) <$> seqZ 0 (Z.of_nat (length donPeerIDs))).
Proof.
  intros Hnd Hlen Hsched.
  unfold GetPeerIDToTransmissionDelaysForConfig.
  rewrite Hsched, createTransmissionSchedule_oneAtATime.
  set (n := Z.of_nat (length donPeerIDs)) in *.
  set (key := transmissionScheduleSeed Keccak256 transmissionID).
  set (picked := permutation_Permutation n key).
  set (g := fun k => stage_delay (DeltaStage tc) (default 0 (picked !! Z.to_nat k))).
  destruct (assign_delays_total (replicate (Z.to_nat n) 1) picked (DeltaStage tc) g
              donPeerIDs 0 ∅) as (m & Hm & _ & Hin & Hlist).
  { intros k Hk. apply delayFor_oneAtATime; lia. }
  specialize (Hlist Hnd (fun p _ => lookup_empty p)).
  rewrite map_to_list_empty, app_nil_r in Hlist. fold n in Hlist.
  assert ((map_to_list m).*2 ≡ₚ stage_delay (DeltaStage tc) <$> seqZ 0 n) as Hvals.
  { rewrite Hlist, snd_zip by (rewrite length_fmap, length_seqZ; lia).
    subst g picked. cbv beta.
    rewrite (delays_of_positions n key (stage_delay (DeltaStage tc))) by lia.
    by rewrite (Permutation_bijection n key) by lia. }
  exists m. split; [done|]. split; [|split; [|split]].
  - intros p Hp. destruct (Hin p Hp) as (k & _ & Hk). by rewrite Hk.
  - rewrite <- length_map_to_list, Hlist, length_zip, length_fmap, length_seqZ.
    lia.
  - done.
  - intros Hfit. rewrite Hvals.
    assert (stage_delay (DeltaStage tc) <$> seqZ 0 n
            = (fun i => i * DeltaStage tc) <$> seqZ 0 n) as ->; [|done].
    apply Forall_fmap_ext, Forall_forall. intros i Hi.
    apply elem_of_seqZ in Hi. unfold stage_delay.
    apply wrap64_id. unfold is_int64 in *.
    destruct (Z.le_gt_cases 0 (DeltaStage tc)) as [Hd|Hd].
    + assert (0 <= i * DeltaStage tc <= (n - 1) * DeltaStage tc) by nia. lia.
    + assert ((n - 1) * DeltaStage tc <= i * DeltaStage tc <= 0) by nia. lia.
Qed.

(** C5. For N distinct peers and the schedule allAtOnce, every peer is
    in the returned map with the delay 0, and the map has N entries. *)
Theorem allAtOnce_every_peer_has_delay_zero
    (donPeerIDs : list PeerID) (transmissionID : string) (tc : TransmissionConfig) :
  NoDup donPeerIDs ->
  Z.of_nat (length donPeerIDs) < 2 ^ 63 ->
  Schedule tc = Schedule_AllAtOnce ->
  exists m,
    GetDelays donPeerIDs transmissionID tc = Ret m /\
    (forall p, p ∈ donPeerIDs -> m !! p = Some 0) /\
    size m = length donPeerIDs.
Proof.
  intros Hnd Hlen Hsched.
  unfold GetPeerIDToTransmissionDelaysForConfig.
  rewrite Hsched, createTransmissionSchedule_allAtOnce.
  set (n := Z.of_nat (length donPeerIDs)) in *.
  set (key := transmissionScheduleSeed Keccak256 transmissionID).
  destruct (assign_delays_total [n] (permutation_Permutation n key) (DeltaStage tc)
              (fun _ => 0) donPeerIDs 0 ∅) as (m & Hm & _ & Hin & Hlist).
  { intros k Hk. apply delayFor_allAtOnce; lia. }
  specialize (Hlist Hnd (fun p _ => lookup_empty p)).
  rewrite map_to_list_empty, app_nil_r in Hlist.
  exists m. split; [done|]. split.
  - intros p Hp. by destruct (Hin p Hp) as (k & _ & Hk).
  - rewrite <- length_map_to_list, Hlist, length_zip, length_fmap, length_seqZ.
    lia.
Qed.

(** C3. For 0 <= N and either schedule name,
    [createTransmissionSchedule] returns non-negative integers that sum
    to N; hence [delayFor] finds a bucket for every rank in [0..N), and
    the returned map holds every peer of the list. *)
Theorem schedule_covers_every_rank (scheduleType : string) (N : Z) :
  0 <= N < 2 ^ 63 ->
  scheduleType = Schedule_AllAtOnce \/ scheduleType = Schedule_OneAtATime ->
  exists schedule,
    createTransmissionSchedule scheduleType N = Ret schedule /\
    Forall (fun s => 0 <= s) schedule /\
    sum_ints schedule = N /\
    (forall position picked rank d,
       index picked position = Ret rank -> 0 <= rank < N ->
       exists j, delayFor position schedule picked d
                 = Ret (Some (stage_delay d j))) /\
    (forall (donPeerIDs : list PeerID) transmissionID tc,
       Z.of_nat (length donPeerIDs) = N -> Schedule tc = scheduleType ->
       exists m, GetDelays donPeerIDs transmissionID tc = Ret m /\
                 forall p, p ∈ donPeerIDs -> is_Some (m !! p)).
Proof.
  intros HN Hname.
  assert (exists schedule,
            createTransmissionSchedule scheduleType N = Ret schedule /\
            Forall (fun s => 0 <= s) schedule /\ sum_ints schedule = N)
    as (schedule & Hcreate & Hpos & Hsum).
  { destruct Hname as [-> | ->].
    - exists [N]. split; [done|]. split; [|cbn; lia].
      apply Forall_singleton. lia.
    - exists (replicate (Z.to_nat N) 1). split; [done|]. split.
      + apply Forall_replicate. lia.
      + rewrite sum_ints_replicate. lia. }
  assert (forall position picked rank d,
            index picked position = Ret rank -> 0 <= rank < N ->
            exists j, delayFor position schedule picked d
                      = Ret (Some (stage_delay d j))) as Hfind.
  { intros position picked rank d Hrank Hrange.
    destruct (delayFor_from_finds position picked rank d Hrank schedule 0 0)
      as (j & _ & Hj); [done|lia|lia|lia|].
    by exists j. }
  exists schedule. repeat split; try done.
  intros donPeerIDs transmissionID tc Hlen Hsched.
  unfold GetPeerIDToTransmissionDelaysForConfig.
  rewrite Hsched, Hlen, Hcreate.
  set (picked := permutation_Permutation N _).
  set (g := fun k => match delayFor k schedule picked (DeltaStage tc) with
                     | Ret (Some delay) => delay
                     | _ => 0
                     end).
  destruct (assign_delays_total schedule picked (DeltaStage tc) g donPeerIDs 0 ∅)
    as (m & Hm & _ & Hin & _).
  { intros k Hk. unfold g, picked.
    destruct (picked_rank N (transmissionScheduleSeed Keccak256 transmissionID) k)
      as (rank & Hr & Hrange); [lia|].
    destruct (Hfind k (permutation_Permutation N
                (transmissionScheduleSeed Keccak256 transmissionID))
                rank (DeltaStage tc)) as (j & Hj); [|done|].
    - apply index_lookup; [lia|done].
    - by rewrite Hj. }
  exists m. split; [done|].
  intros p Hp. destruct (Hin p Hp) as (k & _ & Hk). by rewrite Hk.
Qed.

End SchedulerClaims.

(** The sample permutation honours the contract. *)
Lemma sample_Permutation_bijection (n : Z) (key : list byte) :
  0 <= n -> sample.Permutation n key ≡ₚ seqZ 0 n.
Proof. intros _. apply reverse_Permutation. Qed.

Lemma sample_peers_NoDup : NoDup sample.peers.
Proof. apply (bool_decide_unpack _). by vm_compute. Qed.

Lemma oneAtATime_delays_are_the_stages_witness :
  exists m,
    transmission.GetPeerIDToTransmissionDelaysForConfig
      sample.digest sample.Permutation sample.peers "exec-1" sample.oneAtATime_1s
    = Ret m /\
    (forall p, p ∈ sample.peers -> is_Some (m !! p)) /\
    size m = length sample.peers /\
    (map_to_list m).*2 ≡ₚ
      transmission.stage_delay (1 * time.Second) <$> seqZ 0 3 /\
    (is_int64 ((3 - 1) * (1 * time.Second)) ->
     (map_to_list m).*2 ≡ₚ (fun i => i * (1 * time.Second)) <$> seqZ 0 3).
Proof.
  apply (oneAtATime_delays_are_the_stages sample.digest sample.Permutation
           sample_Permutation_bijection sample.peers "exec-1" sample.oneAtATime_1s).
  - exact sample_peers_NoDup.
  - vm_compute. reflexivity.
  - reflexivity.
Defined.

Lemma allAtOnce_every_peer_has_delay_zero_witness :
  exists m,
    transmission.GetPeerIDToTransmissionDelaysForConfig
      sample.digest sample.Permutation sample.peers "exec-1" sample.allAtOnce_1s
    = Ret m /\
    (forall p, p ∈ sample.peers -> m !! p = Some 0) /\
    size m = length sample.peers.
Proof.
  apply (allAtOnce_every_peer_has_delay_zero sample.digest sample.Permutation
           sample_Permutation_bijection sample.peers "exec-1" sample.allAtOnce_1s).
  - exact sample_peers_NoDup.
  - vm_compute. reflexivity.
  - reflexivity.
Defined.

Lemma schedule_covers_every_rank_witness :
  0 <= 3 < 2 ^ 63 /\
  exists schedule,
    transmission.createTransmissionSchedule transmission.Schedule_OneAtATime 3
    = Ret schedule /\
    Forall (fun s => 0 <= s) schedule /\
    transmission.sum_ints schedule = 3 /\
    (forall position picked rank d,
       index picked position = Ret rank -> 0 <= rank < 3 ->
       exists j, transmission.delayFor position schedule picked d
                 = Ret (Some (transmission.stage_delay d j))) /\
    (forall (donPeerIDs : list nat) transmissionID tc,
       Z.of_nat (length donPeerIDs) = 3 ->
       transmission.Schedule tc = transmission.Schedule_OneAtATime ->
       exists m,
         transmission.GetPeerIDToTransmissionDelaysForConfig
           sample.digest sample.Permutation donPeerIDs transmissionID tc = Ret m /\
         forall p, p ∈ donPeerIDs -> is_Some (m !! p)).
Proof.
  split; [lia|].
  apply (schedule_covers_every_rank sample.digest sample.Permutation
           sample_Permutation_bijection transmission.Schedule_OneAtATime 3).
  - lia.
  - right. reflexivity.
Defined.

(** ** The transmission configuration *)

Section ExtractClaims.

Import time transmission.

Context {ValuesMap : Type}.
Variable Map_UnwrapTo : ValuesMap -> outcome rawConfig.

Lemma length_zero_iff_empty (s : string) :
  (String.length s =? 0)%nat = true <-> s = "".
Proof. destruct s; cbn; split; congruence. Qed.

Lemma length_nonzero (s : string) :
  s <> "" -> (String.length s =? 0)%nat = false.
Proof. destruct s; cbn; congruence. Qed.

(** C9, as the code has it. [ExtractTransmissionConfig] does not look at
    the sign of DeltaStage: for a configuration whose Schedule and
    DeltaStage are not both empty, a DeltaStage that parses as a
    duration d, negative or not, is returned as it is with the Schedule
    as given, and a DeltaStage that does not parse is an error. *)
Theorem DeltaStage_is_accepted_whenever_it_parses
    (config : ValuesMap) (tc : rawConfig) :
  Map_UnwrapTo config = Ret tc ->
  ~ (raw_Schedule tc = "" /\ raw_DeltaStage tc = "") ->
  (forall d, ParseDuration (raw_DeltaStage tc) = Ret d ->
     ExtractTransmissionConfig Map_UnwrapTo config
     = Ret {| Schedule := raw_Schedule tc; DeltaStage := d |}) /\
  (forall err, ParseDuration (raw_DeltaStage tc) = Error err ->
     exists msg, ExtractTransmissionConfig Map_UnwrapTo config = Error msg).
Proof.
  intros Hunwrap Hnot. unfold ExtractTransmissionConfig. rewrite Hunwrap.
  assert ((String.length (raw_Schedule tc) =? 0)%nat
          && (String.length (raw_DeltaStage tc) =? 0)%nat = false) as ->.
  { apply andb_false_iff.
    destruct (raw_Schedule tc) eqn:Hs; [|by left].
    destruct (raw_DeltaStage tc) eqn:Hd; [|by right].
    by destruct Hnot. }
  split.
  - by intros d ->.
  - intros err ->. eauto.
Qed.

(** C10. The default (allAtOnce, 0) is returned when Schedule and
    DeltaStage are both empty; in every other case the result is what
    the parse of DeltaStage gives, so a configuration with a Schedule
    and an empty DeltaStage fails with the duration-parse error. *)
Theorem default_needs_both_entries_empty
    (config : ValuesMap) (tc : rawConfig) :
  Map_UnwrapTo config = Ret tc ->
  (raw_Schedule tc = "" /\ raw_DeltaStage tc = "" ->
     ExtractTransmissionConfig Map_UnwrapTo config
     = Ret {| Schedule := Schedule_AllAtOnce; DeltaStage := 0 |}) /\
  (~ (raw_Schedule tc = "" /\ raw_DeltaStage tc = "") ->
     ExtractTransmissionConfig Map_UnwrapTo config
     = match ParseDuration (raw_DeltaStage tc) with
       | Ret duration =>
           Ret {| Schedule := raw_Schedule tc; DeltaStage := duration |}
       | Error err =>
           Error ("failed to parse DeltaStage " +:+ raw_DeltaStage tc
                  +:+ " as duration: " +:+ err)
       | Panic => Panic
       end) /\
  (raw_Schedule tc <> "" -> raw_DeltaStage tc = "" ->
     ExtractTransmissionConfig Map_UnwrapTo config
     = Error ("failed to parse DeltaStage  as duration: " +:+ invalid_duration)).
Proof.
  intros Hunwrap. unfold ExtractTransmissionConfig. rewrite Hunwrap.
  split; [|split].
  - by intros [-> ->].
  - intros Hnot.
    destruct (raw_Schedule tc) eqn:Hs; [|done].
    destruct (raw_DeltaStage tc) eqn:Hd; [|done].
    by destruct Hnot.
  - intros Hs ->. by rewrite (length_nonzero _ Hs).
Qed.

End ExtractClaims.

(** C9, as the claim has it, fails: the configuration
    [{DeltaStage: "-5s", Schedule: "oneAtATime"}] has a DeltaStage that
    parses as the negative duration -5s, and the call returns it. *)
Lemma negative_DeltaStage_is_returned :
  time.ParseDuration (transmission.raw_DeltaStage sample.negative_stage)
  = Ret (-5 * time.Second) /\
  -5 * time.Second < 0 /\
  transmission.ExtractTransmissionConfig sample.UnwrapTo sample.negative_stage
  = Ret {| transmission.Schedule := "oneAtATime";
           transmission.DeltaStage := -5 * time.Second |}.
Proof. vm_compute. repeat split. Qed.

Lemma DeltaStage_is_accepted_whenever_it_parses_witness :
  (forall d, time.ParseDuration "-5s" = Ret d ->
     transmission.ExtractTransmissionConfig sample.UnwrapTo sample.negative_stage
     = Ret {| transmission.Schedule := "oneAtATime"; transmission.DeltaStage := d |}) /\
  (forall err, time.ParseDuration "-5s" = Error err ->
     exists msg,
       transmission.ExtractTransmissionConfig sample.UnwrapTo sample.negative_stage
       = Error msg).
Proof.
  apply (DeltaStage_is_accepted_whenever_it_parses sample.UnwrapTo
           sample.negative_stage sample.negative_stage).
  - reflexivity.
  - intros [Hs _]. discriminate Hs.
Defined.

Lemma default_needs_both_entries_empty_witness :
  transmission.ExtractTransmissionConfig sample.UnwrapTo sample.schedule_only
  = Error ("failed to parse DeltaStage  as duration: " +:+ time.invalid_duration).
Proof.
  apply (proj2 (proj2 (default_needs_both_entries_empty
                         sample.UnwrapTo sample.schedule_only sample.schedule_only
                         eq_refl))).
  - discriminate.
  - reflexivity.
Defined.

(** ** The backoff *)

Section BackoffFacts.

Import time backoff.

(** The wait of the attempt [a] lies between the floor and the floor
    doubled [a] times, and never above the cap; the first is the floor. *)
Lemma ForAttempt_bounds (b : Backoff) (a rnd : Z) :
  doubling b -> 0 <= a -> 0 <= rnd < 2 ^ 53 ->
  Min b <= ForAttempt b a rnd <= Z.min (Max b) (Min b * 2 ^ a) /\
  (a = 0 -> ForAttempt b a rnd = Min b).
Proof.
  intros (Hmin & Hlt & Hmax & Hf & Hj) Ha Hrnd. unfold ForAttempt.
  rewrite Hf, Hj.
  destruct (Z.leb_spec (Min b) 0) as [?|_]; [lia|].
  destruct (Z.leb_spec (Max b) 0) as [?|_]; [lia|].
  destruct (Z.leb_spec (Max b) (Min b)) as [?|_]; [lia|].
  change (2 <=? 0) with false. cbv iota.
  assert (1 <= 2 ^ a) as Hpow by (pose proof (Z.pow_pos_nonneg 2 a); lia).
  set (span := Min b * 2 ^ a - Min b).
  assert (0 <= span) as Hspan.
  { pose proof (Z.mul_le_mono_nonneg_l 1 (2 ^ a) (Min b)). unfold span. lia. }
  assert (0 <= rnd * span / 2 ^ 53 <= span) as Hfrac.
  { split.
    - apply Z.div_pos; [apply Z.mul_nonneg_nonneg; lia|lia].
    - apply Z.div_le_upper_bound; [lia|].
      apply Z.mul_le_mono_nonneg_r; lia. }
  split.
  - destruct (Z.ltb_spec backoff.maxInt64 (rnd * span / 2 ^ 53 + Min b)); [lia|].
    destruct (Z.ltb_spec (rnd * span / 2 ^ 53 + Min b) (Min b)); [lia|].
    destruct (Z.ltb_spec (Max b) (rnd * span / 2 ^ 53 + Min b)); unfold span in *; lia.
  - intros ->.
    assert (rnd * span / 2 ^ 53 = 0) as ->.
    { unfold span. rewrite Z.pow_0_r, Z.mul_1_r, Z.sub_diag, Z.mul_0_r. done. }
    rewrite Z.add_0_l.
    destruct (Z.ltb_spec backoff.maxInt64 (Min b)); [lia|].
    rewrite Z.ltb_irrefl.
    destruct (Z.ltb_spec (Max b) (Min b)); lia.
Qed.


Lemma queue_backoff_doubling (k : Z) :
  doubling (with_attempt k mercurytransmitter.queue_backoff).
Proof. unfold doubling. cbn. repeat split; try lia; by vm_compute. Qed.


End BackoffFacts.

(** ** The delivery loops *)

Section TraceFacts.

Import mercurytransmitter.

Lemma waits_app (tr1 tr2 : list event) : waits (tr1 ++ tr2) = waits tr1 ++ waits tr2.
Proof. apply omap_app. Qed.

Lemma orm_deletes_app (tr1 tr2 : list event) :
  orm_deletes (tr1 ++ tr2) = orm_deletes tr1 ++ orm_deletes tr2.
Proof. apply omap_app. Qed.

Lemma pushes_app (tr1 tr2 : list event) : pushes (tr1 ++ tr2) = pushes tr1 ++ pushes tr2.
Proof. apply omap_app. Qed.

Lemma network_calls_app (tr1 tr2 : list event) :
  network_calls (tr1 ++ tr2) = network_calls tr1 ++ network_calls tr2.
Proof. apply omap_app. Qed.

Lemma handed_over_app (tr1 tr2 : list event) :
  handed_over (tr1 ++ tr2) = handed_over tr1 ++ handed_over tr2.
Proof. apply omap_app. Qed.

Lemma critical_logs_app (tr1 tr2 : list event) :
  critical_logs (tr1 ++ tr2) = critical_logs tr1 ++ critical_logs tr2.
Proof. apply omap_app. Qed.

End TraceFacts.

Ltac simpl_server :=
  cbn [mercurytransmitter.trace mercurytransmitter.emit
       mercurytransmitter.add_transmitThreadBusyCount
       mercurytransmitter.add_deleteThreadBusyCount
       mercurytransmitter.inc_transmitConnectionErrorCount
       mercurytransmitter.inc_transmitSuccessCount
       mercurytransmitter.inc_transmitDuplicateCount
       mercurytransmitter.inc_transmitQueueDeleteErrorCount
       mercurytransmitter.inc_transmitServerErrorCount
       mercurytransmitter.set_deleteQueue
       mercurytransmitter.deleteQueue mercurytransmitter.deleteQueue_cap
       mercurytransmitter.transmitSuccessCount
       mercurytransmitter.transmitDuplicateCount
       mercurytransmitter.transmitConnectionErrorCount
       mercurytransmitter.transmitQueueDeleteErrorCount
       mercurytransmitter.transmitServerErrorCount
       mercurytransmitter.transmitThreadBusyCount
       mercurytransmitter.deleteThreadBusyCount] in *.

Ltac split_trace :=
  cbn [mercurytransmitter.trace mercurytransmitter.emit
       mercurytransmitter.add_transmitThreadBusyCount
       mercurytransmitter.add_deleteThreadBusyCount
       mercurytransmitter.inc_transmitConnectionErrorCount
       mercurytransmitter.inc_transmitSuccessCount
       mercurytransmitter.inc_transmitDuplicateCount
       mercurytransmitter.inc_transmitQueueDeleteErrorCount
       mercurytransmitter.inc_transmitServerErrorCount
       mercurytransmitter.set_deleteQueue];
  rewrite ?waits_app, ?orm_deletes_app, ?pushes_app, ?network_calls_app,
    ?critical_logs_app, ?handed_over_app;
  cbn [mercurytransmitter.waits mercurytransmitter.orm_deletes
       mercurytransmitter.pushes mercurytransmitter.network_calls
       mercurytransmitter.critical_logs mercurytransmitter.handed_over
       omap list_omap];
  rewrite ?app_nil_r.

Section TransmitLoopClaims.

Import time backoff mercurytransmitter.

Variables ReportFormatJSON ReportFormatEVMPremiumLegacy DuplicateReport : Z.
Variable Hash : Transmission -> list byte.
Variables jsonPacker_Pack evmPremiumLegacyPacker_Pack :
  list byte -> Z -> list byte -> list AttributedOnchainSignature ->
  list byte * option string.

Abbreviation transmit_ :=
  (transmit ReportFormatJSON ReportFormatEVMPremiumLegacy
     jsonPacker_Pack evmPremiumLegacyPacker_Pack).
Abbreviation queueLoop_round_ :=
  (queueLoop_round ReportFormatJSON ReportFormatEVMPremiumLegacy DuplicateReport
     Hash jsonPacker_Pack evmPremiumLegacyPacker_Pack).


(** C7, as the code has it. A round whose send completes without error,
    the context not being cancelled, and whose reply has a non-empty
    Error and the code DuplicateReport, increments the success counter
    and the duplicate counter by one each, pushes nothing back, starts no
    wait, and tries once, without blocking, to send the hash of the
    record on the delete channel: the hash goes to the delete loop when
    it is parked on the channel, else into the buffer when there is room,
    else it is dropped with one critical log line.  The loop goes on with
    its backoff reset. *)
Theorem duplicate_reply_counts_twice_and_requests_delete
    (e : queue_env) (s : server) (b : Backoff) (t : Transmission)
    (req : TransmitRequest) (res : TransmitResponse) :
  q_BlockingPop e = Some t ->
  transmit_ e t = (Some req, Some res, None, [EvClientTransmit req]) ->
  ctx_Err e = false ->
  Error res <> "" ->
  Code res = DuplicateReport ->
  exists s',
    queueLoop_round_ e s b = (Continue, s', Reset b) /\
    transmitSuccessCount s' = transmitSuccessCount s + 1 /\
    transmitDuplicateCount s' = transmitDuplicateCount s + 1 /\
    transmitConnectionErrorCount s' = transmitConnectionErrorCount s /\
    transmitServerErrorCount s' = transmitServerErrorCount s /\
    pushes (trace s') = pushes (trace s) /\
    waits (trace s') = waits (trace s) /\
    (deleteQueue_receiver e = true ->
       handed_over (trace s') = handed_over (trace s) ++ [Hash t] /\
       deleteQueue s' = deleteQueue s /\
       critical_logs (trace s') = critical_logs (trace s)) /\
    (deleteQueue_receiver e = false ->
     (length (deleteQueue s) < deleteQueue_cap s)%nat ->
       deleteQueue s' = deleteQueue s ++ [Hash t] /\
       handed_over (trace s') = handed_over (trace s) /\
       critical_logs (trace s') = critical_logs (trace s)) /\
    (deleteQueue_receiver e = false ->
     (deleteQueue_cap s <= length (deleteQueue s))%nat ->
       deleteQueue s' = deleteQueue s /\
       handed_over (trace s') = handed_over (trace s) /\
       critical_logs (trace s') = critical_logs (trace s) ++ ["Delete queue is full"]).
Proof.
  intros Hpop Htransmit Hctx Herr Hcode.
  unfold queueLoop_round. rewrite Hpop, Htransmit, Hctx.
  apply String.eqb_neq in Herr. rewrite Herr, Hcode, Z.eqb_refl.
  unfold request_delete.
  destruct (deleteQueue_receiver e).
  - eexists; (split; [reflexivity|]); split_trace; simpl_server.
    repeat split; done.
  - simpl_server.
    destruct (Nat.ltb_spec (length (deleteQueue s)) (deleteQueue_cap s))
      as [Hroom|Hfull];
      eexists; (split; [reflexivity|]); split_trace; simpl_server;
      repeat split; try done; lia.
Qed.

End TransmitLoopClaims.

Section DeleteLoopClaims.

Import time backoff mercurytransmitter.



End DeleteLoopClaims.

(** C2. The record of the format 99, which is neither of the two
    formats, run through the first round of the loop of an idle server
    with a live context: [transmit] fails before any network call, the
    round counts a connection error and then panics on the nil request
    that the log line reads; nothing is logged, pushed back or requested
    for deletion, and the loop never reaches the next round. *)
Lemma unsupported_format_round_panics :
  sample.unsupported_format <> sample.ReportFormatJSON /\
  sample.unsupported_format <> sample.ReportFormatEVMPremiumLegacy /\
  mercurytransmitter.transmit sample.ReportFormatJSON
    sample.ReportFormatEVMPremiumLegacy sample.Pack sample.Pack
    sample_more.unsupported_round (sample.record sample.unsupported_format)
  = (None, None,
     Some "Transmit failed; don't know how to Pack unsupported report format",
     []) /\
  (sample.first_round sample_more.unsupported_round).1.1
  = mercurytransmitter.Panicked /\
  mercurytransmitter.transmitConnectionErrorCount
    (sample.first_round sample_more.unsupported_round).1.2 = 1 /\
  mercurytransmitter.trace (sample.first_round sample_more.unsupported_round).1.2
  = [] /\
  mercurytransmitter.deleteQueue
    (sample.first_round sample_more.unsupported_round).1.2 = [] /\
  (sample_more.run [sample_more.unsupported_round; sample_more.duplicate_round]).1.1
  = mercurytransmitter.Crashed.
Proof. repeat split; by vm_compute. Qed.


(** C7, as the claim has it, fails: a reply that carries the code
    DuplicateReport with an empty Error is a plain success, and the
    duplicate counter stays. *)
Lemma duplicate_code_with_empty_error_counts_once :
  mercurytransmitter.Code sample.duplicate_code_no_error = sample.DuplicateReport /\
  (sample.first_round
     (sample.round sample.ReportFormatJSON
        (Some sample.duplicate_code_no_error, None) true)).1.1
  = mercurytransmitter.Continue /\
  mercurytransmitter.transmitSuccessCount
    (sample.first_round
       (sample.round sample.ReportFormatJSON
          (Some sample.duplicate_code_no_error, None) true)).1.2 = 1 /\
  mercurytransmitter.transmitDuplicateCount
    (sample.first_round
       (sample.round sample.ReportFormatJSON
          (Some sample.duplicate_code_no_error, None) true)).1.2 = 0.
Proof. repeat split; by vm_compute. Qed.

(** On a delete channel without buffer the hash goes to the delete loop
    when it is parked on the channel, and is dropped with the critical
    log line when it is not. *)
Example unbuffered_channel_hands_the_hash_over :
  mercurytransmitter.handed_over
    (mercurytransmitter.trace
       (sample_more.unbuffered_round sample_more.parked_round).1.2)
  = [sample.Hash sample_more.json_record] /\
  mercurytransmitter.critical_logs
    (mercurytransmitter.trace
       (sample_more.unbuffered_round sample_more.parked_round).1.2) = [] /\
  mercurytransmitter.handed_over
    (mercurytransmitter.trace
       (sample_more.unbuffered_round sample_more.duplicate_round).1.2) = [] /\
  mercurytransmitter.critical_logs
    (mercurytransmitter.trace
       (sample_more.unbuffered_round sample_more.duplicate_round).1.2)
  = ["Delete queue is full"].
Proof. repeat split; by vm_compute. Qed.

Lemma duplicate_reply_counts_twice_and_requests_delete_witness :
  exists s',
    sample.first_round
      (sample.round sample.ReportFormatJSON (Some sample.duplicate_reply, None) true)
    = (mercurytransmitter.Continue, s',
       backoff.Reset mercurytransmitter.queue_backoff) /\
    mercurytransmitter.transmitSuccessCount s' = 1 /\
    mercurytransmitter.transmitDuplicateCount s' = 1 /\
    mercurytransmitter.deleteQueue s'
    = [sample.Hash (sample.record sample.ReportFormatJSON)].
Proof.
  destruct (duplicate_reply_counts_twice_and_requests_delete
              sample.ReportFormatJSON sample.ReportFormatEVMPremiumLegacy
              sample.DuplicateReport sample.Hash sample.Pack sample.Pack
              (sample.round sample.ReportFormatJSON (Some sample.duplicate_reply, None) true)
              sample.idle_server mercurytransmitter.queue_backoff
              (sample.record sample.ReportFormatJSON)
              (sample.request sample.ReportFormatJSON) sample.duplicate_reply)
    as (s' & Hrun & Hsucc & Hdup & _ & _ & _ & _ & _ & Hroom & _).
  - reflexivity.
  - reflexivity.
  - reflexivity.
  - discriminate.
  - reflexivity.
  - exists s'. repeat split; try done.
    apply Hroom; [reflexivity|]. vm_compute. lia.
Defined.


(** The run of the claim: two failures, then a success; the counter
    reads 2 and the waits were 1s and a jittered wait of at most 2s. *)
Example delete_fails_twice_then_succeeds :
  let '(state, s', b') :=
    mercurytransmitter.runDeleteQueueLoop
      [{| mercurytransmitter.stop_first := false;
          mercurytransmitter.attempts :=
            [sample.failing_delete; sample.failing_delete; sample.working_delete] |}]
      sample.server_with_request in
  state = mercurytransmitter.Running /\
  mercurytransmitter.transmitQueueDeleteErrorCount s' = 2 /\
  mercurytransmitter.deleteQueue s' = [] /\
  mercurytransmitter.waits (mercurytransmitter.trace s')
  = [1 * time.Second; 1500000000] /\
  backoff.attempt b' = 0.
Proof. vm_compute. repeat split. Qed.

(** * Further properties of the scheduler *)

Section SeedFacts.

Import transmission.

(** X1. The key has 16 bytes whatever the digest is, and for a digest of
    at least 16 bytes it is the first 16 bytes of the digest: two
    identifiers whose digests share their first 16 bytes share the key. *)
Theorem seed_is_the_digest_cut_to_16_bytes
    (Keccak256 : list byte -> list byte) (transmissionID : string) :
  length (transmissionScheduleSeed Keccak256 transmissionID) = 16%nat /\
  ((16 <= length (Keccak256 (list_byte_of_string transmissionID)))%nat ->
   transmissionScheduleSeed Keccak256 transmissionID
   = take 16 (Keccak256 (list_byte_of_string transmissionID))).
Proof.
  unfold transmissionScheduleSeed, copy_into_zeroed. split.
  - rewrite length_app, length_take, length_replicate. lia.
  - intros Hlen.
    replace (16 - length (Keccak256 (list_byte_of_string transmissionID)))%nat
      with 0%nat by lia.
    apply app_nil_r.
Qed.

End SeedFacts.

Section BucketFacts.

Import time transmission.

Variables (position : Z) (picked : list Z) (rank : Z) (deltaStage : Duration).
Hypothesis Hrank : index picked position = Ret rank.

Lemma sum_ints_nonneg (l : list Z) : Forall (fun s => 0 <= s) l -> 0 <= sum_ints l.
Proof. induction 1; cbn; [lia|]. fold (sum_ints l). lia. Qed.

Lemma delayFor_from_bucket (schedule : list Z) :
  forall i acc,
    Forall (fun s => 0 <= s) schedule ->
    0 <= acc <= rank ->
    acc + sum_ints schedule < 2 ^ 63 ->
    (rank < acc + sum_ints schedule ->
     exists j : nat,
       (j < length schedule)%nat /\
       acc + sum_ints (take j schedule) <= rank
         < acc + sum_ints (take (S j) schedule) /\
       delayFor_from i acc schedule position picked deltaStage
       = Ret (Some (stage_delay deltaStage (i + Z.of_nat j)))) /\
    (acc + sum_ints schedule <= rank ->
     delayFor_from i acc schedule position picked deltaStage = Ret None).
Proof.
  induction schedule as [|s rest IH]; intros i acc Hpos Hacc Hmax.
  - cbn. split; [lia|done].
  - apply Forall_cons in Hpos as [Hs Hrest].
    pose proof (sum_ints_nonneg rest Hrest) as Hsum.
    cbn [sum_ints foldr] in *. fold (sum_ints rest) in *.
    cbn [delayFor_from]. rewrite Hrank.
    rewrite wrap64_id by (unfold is_int64; lia).
    destruct (Z.ltb_spec rank (acc + s)) as [Hin|Hout].
    + split; [|lia]. intros _. exists 0%nat.
      split; [cbn; lia|]. split; [|by rewrite Z.add_0_r].
      change (take 1 (s :: rest)) with (s :: take 0 rest).
      rewrite !take_0. cbn. lia.
    + destruct (IH (i + 1) (acc + s) Hrest) as [Hfound Hnone]; [lia|lia|].
      split.
      * intros Hlt. destruct Hfound as (j & Hj & Hbr & Hrun); [lia|].
        exists (S j). split; [cbn; lia|]. split.
        -- change (take (S j) (s :: rest)) with (s :: take j rest).
           change (take (S (S j)) (s :: rest)) with (s :: take (S j) rest).
           change (sum_ints (s :: take j rest)) with (s + sum_ints (take j rest)).
           change (sum_ints (s :: take (S j) rest))
             with (s + sum_ints (take (S j) rest)).
           lia.
        -- rewrite Hrun. do 3 f_equal. lia.
      * intros Hge. apply Hnone. lia.
Qed.

(** X2. For a schedule of non-negative bucket sizes, [delayFor] gives the
    peer the delay of the first bucket whose cumulated size exceeds its
    rank, and no delay when the rank is not below the total size. *)
Theorem delayFor_picks_the_bucket_of_the_rank (schedule : list Z) :
  Forall (fun s => 0 <= s) schedule ->
  sum_ints schedule < 2 ^ 63 ->
  0 <= rank ->
  (rank < sum_ints schedule ->
   exists j : nat,
     (j < length schedule)%nat /\
     sum_ints (take j schedule) <= rank < sum_ints (take (S j) schedule) /\
     delayFor position schedule picked deltaStage
     = Ret (Some (stage_delay deltaStage (Z.of_nat j)))) /\
  (sum_ints schedule <= rank ->
   delayFor position schedule picked deltaStage = Ret None).
Proof.
  intros Hpos Hmax Hr.
  destruct (delayFor_from_bucket schedule 0 0 Hpos ltac:(lia) ltac:(lia))
    as [Hfound Hnone].
  split.
  - intros Hlt. destruct Hfound as (j & Hj & Hbr & Hrun); [lia|].
    exists j. split; [done|]. split; [lia|]. by rewrite Z.add_0_l in Hrun.
  - intros Hge. apply Hnone. lia.
Qed.

End BucketFacts.

Section DelayMapMore.

Import time transmission.

Context {PeerID : Type} `{Countable PeerID}.

Variable Keccak256 : list byte -> list byte.
Variable permutation_Permutation : Z -> list byte -> list Z.

(** X3. A schedule name other than the two known ones is an error,
    whatever the peers, the identifier and the permutation are. *)
Theorem unknown_schedule_gives_no_delays
    (donPeerIDs : list PeerID) (transmissionID : string) (tc : TransmissionConfig) :
  Schedule tc <> Schedule_AllAtOnce ->
  Schedule tc <> Schedule_OneAtATime ->
  GetPeerIDToTransmissionDelaysForConfig Keccak256 permutation_Permutation
    donPeerIDs transmissionID tc
  = Error ("unknown schedule type " +:+ Schedule tc).
Proof.
  intros Hall Hone.
  unfold GetPeerIDToTransmissionDelaysForConfig, createTransmissionSchedule.
  apply String.eqb_neq in Hall. apply String.eqb_neq in Hone.
  by rewrite Hall, Hone.
Qed.

Hypothesis Permutation_bijection :
  forall n key, 0 <= n -> permutation_Permutation n key ≡ₚ seqZ 0 n.

(** With distinct peers, the peer at each position gets the delay that the
    loop computes for this position. *)
Lemma delay_of_position (schedule picked : list Z) (d : Duration)
    (g : Z -> Duration) (donPeerIDs : list PeerID) :
  (forall k, 0 <= k < 0 + Z.of_nat (length donPeerIDs) ->
     delayFor k schedule picked d = Ret (Some (g k))) ->
  NoDup donPeerIDs ->
  exists m,
    assign_delays 0 donPeerIDs schedule picked d ∅ = Ret m /\
    (forall p, p ∉ donPeerIDs -> m !! p = None) /\
    (forall (k : nat) p, donPeerIDs !! k = Some p -> m !! p = Some (g (Z.of_nat k))).
Proof.
  intros Hfind Hnd.
  destruct (assign_delays_total schedule picked d g donPeerIDs 0 ∅ Hfind)
    as (m & Hm & Hout & _ & Hlist).
  specialize (Hlist Hnd (fun p _ => lookup_empty p)).
  rewrite map_to_list_empty, app_nil_r in Hlist.
  exists m. split; [done|]. split.
  - intros p Hp. by rewrite Hout.
  - intros k p Hk. apply elem_of_map_to_list. rewrite Hlist.
    apply (list_elem_of_lookup_2 _ k). apply lookup_zip_with_Some.
    exists p, (g (Z.of_nat k)). split; [done|]. split; [done|].
    rewrite list_lookup_fmap, lookup_seqZ_lt; [done|].
    apply lookup_lt_Some in Hk. lia.
Qed.

(** X4. oneAtATime with distinct peers, when (N-1)*d fits in 64 bits:
    the peer at the position k waits for the rank of k times d, and the
    delays of two different peers are at least |d| apart. *)
Theorem oneAtATime_peers_are_a_stage_apart
    (donPeerIDs : list PeerID) (transmissionID : string) (tc : TransmissionConfig) :
  NoDup donPeerIDs ->
  Z.of_nat (length donPeerIDs) < 2 ^ 63 ->
  Schedule tc = Schedule_OneAtATime ->
  is_int64 ((Z.of_nat (length donPeerIDs) - 1) * DeltaStage tc) ->
  exists m,
    GetPeerIDToTransmissionDelaysForConfig Keccak256 permutation_Permutation
      donPeerIDs transmissionID tc = Ret m /\
    (forall (k : nat) p, donPeerIDs !! k = Some p ->
       exists rank,
         permutation_Permutation (Z.of_nat (length donPeerIDs))
           (transmissionScheduleSeed Keccak256 transmissionID) !! k = Some rank /\
         m !! p = Some (rank * DeltaStage tc)) /\
    (forall p q x y,
       m !! p = Some x -> m !! q = Some y -> p <> q ->
       Z.abs (DeltaStage tc) <= Z.abs (x - y)).
Proof.
  intros Hnd Hlen Hsched Hfit.
  unfold GetPeerIDToTransmissionDelaysForConfig.
  rewrite Hsched, createTransmissionSchedule_oneAtATime.
  set (n := Z.of_nat (length donPeerIDs)) in *.
  set (key := transmissionScheduleSeed Keccak256 transmissionID).
  set (picked := permutation_Permutation n key).
  set (g := fun k => stage_delay (DeltaStage tc) (default 0 (picked !! Z.to_nat k))).
  destruct (delay_of_position (replicate (Z.to_nat n) 1) picked (DeltaStage tc) g
              donPeerIDs) as (m & Hm & Hout & Hat); [|done|].
  { intros k Hk. apply delayFor_oneAtATime; [done|lia|lia]. }
  assert (forall (k : nat) p, donPeerIDs !! k = Some p ->
            exists rank, picked !! k = Some rank /\ 0 <= rank < n /\
                         m !! p = Some (rank * DeltaStage tc)) as Hpos.
  { intros k p Hk. pose proof (lookup_lt_Some _ _ _ Hk) as Hlt.
    destruct (picked_rank permutation_Permutation Permutation_bijection n key
                (Z.of_nat k)) as (rank & Hr & Hrange); [lia|].
    rewrite Nat2Z.id in Hr. exists rank. split; [done|]. split; [done|].
    trans (Some (g (Z.of_nat k))); [exact (Hat k p Hk)|].
    unfold g, picked. rewrite Nat2Z.id, Hr.
    change (default 0 (Some rank)) with rank. unfold stage_delay. f_equal.
    apply wrap64_id. unfold is_int64 in *.
    destruct (Z.le_gt_cases 0 (DeltaStage tc)).
    - assert (0 <= rank * DeltaStage tc <= (n - 1) * DeltaStage tc) by nia. lia.
    - assert ((n - 1) * DeltaStage tc <= rank * DeltaStage tc <= 0) by nia. lia. }
  exists m. split; [done|]. split.
  - intros k p Hk. destruct (Hpos k p Hk) as (rank & Hr & _ & Hl). eauto.
  - intros p q x y Hp Hq Hne.
    assert (p ∈ donPeerIDs) as Hpin.
    { destruct (decide (p ∈ donPeerIDs)); [done|]. rewrite Hout in Hp; done. }
    assert (q ∈ donPeerIDs) as Hqin.
    { destruct (decide (q ∈ donPeerIDs)); [done|]. rewrite Hout in Hq; done. }
    apply list_elem_of_lookup_1 in Hpin as [k Hk].
    apply list_elem_of_lookup_1 in Hqin as [k' Hk'].
    destruct (Hpos k p Hk) as (r & Hr & _ & Hx).
    destruct (Hpos k' q Hk') as (r' & Hr' & _ & Hy).
    rewrite Hp in Hx. rewrite Hq in Hy. injection Hx as ->. injection Hy as ->.
    assert (r <> r') as Hrr.
    { intros <-. assert (k = k') as <-; [|congruence].
      eapply NoDup_lookup; [|exact Hr|exact Hr'].
      unfold picked. rewrite (Permutation_bijection n key) by lia.
      apply NoDup_seqZ. }
    replace (r * DeltaStage tc - r' * DeltaStage tc)
      with ((r - r') * DeltaStage tc) by lia.
    rewrite Z.abs_mul.
    assert (1 <= Z.abs (r - r')) by lia.
    pose proof (Z.abs_nonneg (DeltaStage tc)). nia.
Qed.

(** allAtOnce, duplicates allowed: the map is 0 on the peers of the list
    and empty elsewhere. *)
Lemma allAtOnce_map (donPeerIDs : list PeerID) (transmissionID : string)
    (d : Duration) :
  Z.of_nat (length donPeerIDs) < 2 ^ 63 ->
  exists m,
    assign_delays 0 donPeerIDs [Z.of_nat (length donPeerIDs)]
      (permutation_Permutation (Z.of_nat (length donPeerIDs))
         (transmissionScheduleSeed Keccak256 transmissionID)) d ∅ = Ret m /\
    forall p, m !! p = if decide (p ∈ donPeerIDs) then Some 0 else None.
Proof.
  intros Hlen.
  destruct (assign_delays_total [Z.of_nat (length donPeerIDs)]
              (permutation_Permutation (Z.of_nat (length donPeerIDs))
                 (transmissionScheduleSeed Keccak256 transmissionID)) d
              (fun _ => 0) donPeerIDs 0 ∅) as (m & Hm & Hout & Hin & _).
  { intros k Hk. apply delayFor_allAtOnce; [done|lia|lia]. }
  exists m. split; [done|]. intros p. destruct (decide (p ∈ donPeerIDs)) as [Hp|Hp].
  - by destruct (Hin p Hp) as (k & _ & Hk).
  - by rewrite Hout.
Qed.

(** X5. allAtOnce, duplicates allowed: the result is the map that is 0
    on the peers of the list and has no other entry; neither DeltaStage
    nor the identifier changes it. *)
Theorem allAtOnce_map_is_zero_on_the_peers
    (donPeerIDs : list PeerID) (transmissionID : string) (tc : TransmissionConfig) :
  Z.of_nat (length donPeerIDs) < 2 ^ 63 ->
  Schedule tc = Schedule_AllAtOnce ->
  exists m,
    GetPeerIDToTransmissionDelaysForConfig Keccak256 permutation_Permutation
      donPeerIDs transmissionID tc = Ret m /\
    (forall p, m !! p = if decide (p ∈ donPeerIDs) then Some 0 else None) /\
    (forall transmissionID' tc',
       Schedule tc' = Schedule_AllAtOnce ->
       GetPeerIDToTransmissionDelaysForConfig Keccak256 permutation_Permutation
         donPeerIDs transmissionID' tc' = Ret m).
Proof.
  intros Hlen Hsched.
  unfold GetPeerIDToTransmissionDelaysForConfig.
  rewrite Hsched, createTransmissionSchedule_allAtOnce.
  destruct (allAtOnce_map donPeerIDs transmissionID (DeltaStage tc) Hlen)
    as (m & Hm & Hlook).
  exists m. split; [done|]. split; [done|].
  intros transmissionID' tc' Hsched'.
  rewrite Hsched', createTransmissionSchedule_allAtOnce.
  destruct (allAtOnce_map donPeerIDs transmissionID' (DeltaStage tc') Hlen)
    as (m' & Hm' & Hlook').
  rewrite Hm'. f_equal. apply map_eq. intros p. by rewrite Hlook, Hlook'.
Qed.

End DelayMapMore.

Section RequestFacts.

Import time transmission transmission_request.

Context {PeerID : Type} `{Countable PeerID} {ValuesMap : Type}.

Variable Map_UnwrapTo : ValuesMap -> outcome rawConfig.
Variable validation_ValidateWorkflowOrExecutionID : string -> option string.
Variable Keccak256 : list byte -> list byte.
Variable permutation_Permutation : Z -> list byte -> list Z.

Abbreviation GetDelay :=
  (GetPeerIDToTransmissionDelay Map_UnwrapTo validation_ValidateWorkflowOrExecutionID
     Keccak256 permutation_Permutation).

(** X7. The schedule name is not checked when the configuration is
    extracted: a configuration with a DeltaStage that parses and a
    Schedule that is neither allAtOnce nor oneAtATime (the empty Schedule
    of a configuration that gives a DeltaStage only, for one) is accepted
    by [ExtractTransmissionConfig], and the request with a valid
    identifier then fails with the unknown schedule type. *)
Theorem unknown_schedule_fails_when_delays_are_computed
    (donPeerIDs : list PeerID) (req : CapabilityRequest ValuesMap)
    (raw : rawConfig) (d : Duration) :
  Map_UnwrapTo (Config req) = Ret raw ->
  ~ (raw_Schedule raw = "" /\ raw_DeltaStage raw = "") ->
  ParseDuration (raw_DeltaStage raw) = Ret d ->
  raw_Schedule raw <> Schedule_AllAtOnce ->
  raw_Schedule raw <> Schedule_OneAtATime ->
  validation_ValidateWorkflowOrExecutionID (WorkflowExecutionID (Metadata req))
  = None ->
  ExtractTransmissionConfig Map_UnwrapTo (Config req)
  = Ret {| Schedule := raw_Schedule raw; DeltaStage := d |} /\
  GetDelay donPeerIDs req = Error ("unknown schedule type " +:+ raw_Schedule raw).
Proof.
  intros Hunwrap Hnot Hparse Hall Hone Hvalid.
  assert (ExtractTransmissionConfig Map_UnwrapTo (Config req)
          = Ret {| Schedule := raw_Schedule raw; DeltaStage := d |}) as Hextract.
  { unfold ExtractTransmissionConfig. rewrite Hunwrap, Hparse.
    destruct (raw_Schedule raw) eqn:Hs; [|done].
    destruct (raw_DeltaStage raw) eqn:Hd; [|done].
    by destruct Hnot. }
  split; [done|].
  unfold GetPeerIDToTransmissionDelay. rewrite Hextract, Hvalid.
  unfold GetPeerIDToTransmissionDelaysForConfig, createTransmissionSchedule.
  cbn [Schedule].
  apply String.eqb_neq in Hall. apply String.eqb_neq in Hone.
  by rewrite Hall, Hone.
Qed.

Hypothesis Permutation_bijection :
  forall n key, 0 <= n -> permutation_Permutation n key ≡ₚ seqZ 0 n.

(** X6. A request whose configuration gives neither Schedule nor
    DeltaStage, with a valid identifier: every peer of the list is in the
    map with the delay 0, and the map has no other entry. *)
Theorem request_without_schedule_sends_all_at_once
    (donPeerIDs : list PeerID) (req : CapabilityRequest ValuesMap) :
  Map_UnwrapTo (Config req) = Ret {| raw_DeltaStage := ""; raw_Schedule := "" |} ->
  validation_ValidateWorkflowOrExecutionID (WorkflowExecutionID (Metadata req))
  = None ->
  Z.of_nat (length donPeerIDs) < 2 ^ 63 ->
  exists m,
    GetDelay donPeerIDs req = Ret m /\
    forall p, m !! p = if decide (p ∈ donPeerIDs) then Some 0 else None.
Proof.
  intros Hunwrap Hvalid Hlen.
  unfold GetPeerIDToTransmissionDelay, ExtractTransmissionConfig.
  rewrite Hunwrap. cbn [raw_Schedule raw_DeltaStage String.length Nat.eqb andb].
  rewrite Hvalid.
  unfold GetPeerIDToTransmissionDelaysForConfig. cbn [Schedule DeltaStage].
  rewrite createTransmissionSchedule_allAtOnce.
  by apply allAtOnce_map.
Qed.

End RequestFacts.

(** * Further properties of the delivery loops *)

Section TransmitFacts.

Import time backoff mercurytransmitter.

Variables ReportFormatJSON ReportFormatEVMPremiumLegacy DuplicateReport : Z.
Variable Hash : Transmission -> list byte.
Variables jsonPacker_Pack evmPremiumLegacyPacker_Pack :
  list byte -> Z -> list byte -> list AttributedOnchainSignature ->
  list byte * option string.

Abbreviation transmit' :=
  (transmit ReportFormatJSON ReportFormatEVMPremiumLegacy
     jsonPacker_Pack evmPremiumLegacyPacker_Pack).
Abbreviation round' :=
  (queueLoop_round ReportFormatJSON ReportFormatEVMPremiumLegacy DuplicateReport
     Hash jsonPacker_Pack evmPremiumLegacyPacker_Pack).
Abbreviation loop' :=
  (queueLoop ReportFormatJSON ReportFormatEVMPremiumLegacy DuplicateReport
     Hash jsonPacker_Pack evmPremiumLegacyPacker_Pack).

(** [transmit] either fails before the network, with no request and no
    response, or makes one network call and hands back its answer. *)
Lemma transmit_cases (e : queue_env) (t : Transmission) :
  (exists err, transmit' e t = (None, None, Some err, [])) \/
  (exists req,
     transmit' e t
     = (Some req, (c_Transmit e).1, (c_Transmit e).2, [EvClientTransmit req]) /\
     req_ReportFormat req = ReportFormat (Info (Report t))).
Proof.
  unfold transmit.
  destruct (ReportFormat (Info (Report t)) =? ReportFormatJSON).
  - destruct (jsonPacker_Pack _ _ _ _) as [payload [err|]]; [eauto|].
    right. destruct (c_Transmit e) as [resp err]. eauto.
  - destruct (ReportFormat (Info (Report t)) =? ReportFormatEVMPremiumLegacy);
      [|eauto].
    destruct (evmPremiumLegacyPacker_Pack _ _ _ _) as [payload [err|]]; [eauto|].
    right. destruct (c_Transmit e) as [resp err]. eauto.
Qed.

(** X8. [transmit] calls the network exactly when the packer of the
    record's format returns a payload without error: then it makes one
    call, with this payload and the record's format, and returns the
    client's answer; an unsupported format or a packer error returns an
    error with no request, no response and no call. *)
Theorem transmit_calls_the_network_iff_packing_succeeds
    (e : queue_env) (t : Transmission) :
  let format := ReportFormat (Info (Report t)) in
  let packed :=
    if format =? ReportFormatJSON then
      Some (jsonPacker_Pack (ConfigDigest t) (SeqNr t) (Report_Report (Report t)) (Sigs t))
    else if format =? ReportFormatEVMPremiumLegacy then
      Some (evmPremiumLegacyPacker_Pack (ConfigDigest t) (SeqNr t)
              (Report_Report (Report t)) (Sigs t))
    else None in
  (forall payload, packed = Some (payload, None) ->
     transmit' e t
     = (Some {| Payload := payload; req_ReportFormat := format |},
        (c_Transmit e).1, (c_Transmit e).2,
        [EvClientTransmit {| Payload := payload; req_ReportFormat := format |}])) /\
  ((forall payload, packed <> Some (payload, None)) ->
     exists err, transmit' e t = (None, None, Some err, [])).
Proof.
  intros format packed. unfold transmit. fold format. fold packed. split.
  - intros payload ->. by destruct (c_Transmit e).
  - intros Hfail. destruct packed as [[payload [err|]]|]; [eauto| |eauto].
    by destruct (Hfail payload).
Qed.

End TransmitFacts.

Section TransmitLoopFacts.

Import time backoff mercurytransmitter rounds.

Variables ReportFormatJSON ReportFormatEVMPremiumLegacy DuplicateReport : Z.
Variable Hash : Transmission -> list byte.
Variables jsonPacker_Pack evmPremiumLegacyPacker_Pack :
  list byte -> Z -> list byte -> list AttributedOnchainSignature ->
  list byte * option string.

Abbreviation transmit'' :=
  (transmit ReportFormatJSON ReportFormatEVMPremiumLegacy
     jsonPacker_Pack evmPremiumLegacyPacker_Pack).
Abbreviation round'' :=
  (queueLoop_round ReportFormatJSON ReportFormatEVMPremiumLegacy DuplicateReport
     Hash jsonPacker_Pack evmPremiumLegacyPacker_Pack).
Abbreviation loop'' :=
  (queueLoop ReportFormatJSON ReportFormatEVMPremiumLegacy DuplicateReport
     Hash jsonPacker_Pack evmPremiumLegacyPacker_Pack).

Lemma wrap32_add_back (x n : Z) : wrap32 (wrap32 (x + n) + - n) = wrap32 x.
Proof.
  unfold wrap32, wrap. change (2 ^ (32 - 1)) with (2 ^ 31). f_equal.
  replace ((x + n + 2 ^ 31) mod 2 ^ 32 - 2 ^ 31 + - n + 2 ^ 31)
    with ((x + n + 2 ^ 31) mod 2 ^ 32 + - n) by lia.
  rewrite Z.add_mod_idemp_l by lia. f_equal. lia.
Qed.

Lemma wrap32_id (x : Z) : is_int32 x -> wrap32 x = x.
Proof.
  unfold is_int32, wrap32, wrap. intros Hx.
  change (2 ^ (32 - 1)) with (2 ^ 31). change (2 ^ 32) with (2 * 2 ^ 31).
  rewrite Z.mod_small by lia. lia.
Qed.

(** What every round of the transmit loop leaves alone, whatever the
    environment answers. *)
Lemma round_frame (e : queue_env) (s : server) (b : Backoff) :
  exists v s' b',
    round'' e s b = (v, s', b') /\
    deleteQueue_cap s' = deleteQueue_cap s /\
    (deleteQueue s' = deleteQueue s \/
     exists t, q_BlockingPop e = Some t /\
               deleteQueue s' = deleteQueue s ++ [Hash t] /\
               (length (deleteQueue s) < deleteQueue_cap s)%nat) /\
    orm_deletes (trace s') = orm_deletes (trace s) /\
    transmitQueueDeleteErrorCount s' = transmitQueueDeleteErrorCount s /\
    deleteThreadBusyCount s' = deleteThreadBusyCount s /\
    (transmitThreadBusyCount s' = transmitThreadBusyCount s \/
     transmitThreadBusyCount s' = wrap32 (transmitThreadBusyCount s)).
Proof.
  unfold queueLoop_round, request_delete.
  destruct (q_BlockingPop e) as [t|] eqn:Hpop.
  2:{ eexists _, _, _. split; [reflexivity|]. repeat split; auto. }
  destruct (transmit_cases ReportFormatJSON ReportFormatEVMPremiumLegacy
              jsonPacker_Pack evmPremiumLegacyPacker_Pack e t)
    as [[err ->]|[req [-> _]]];
    destruct (ctx_Err e);
    try destruct (c_Transmit e) as [[res|] [err|]]; cbn [fst snd];
    try destruct (q_Push e); try destruct (q_stopCh e); cbn [negb Duration];
    try destruct (String.eqb (Error res) "");
    try destruct (Code res =? DuplicateReport);
    match goal with
    | |- context [if deleteQueue_receiver e then _ else _] =>
        destruct (deleteQueue_receiver e)
    | _ => idtac
    end;
    match goal with
    | |- context [Nat.ltb ?a ?c] => destruct (Nat.ltb_spec a c) as [Hroom|Hfull]
    | _ => idtac
    end;
    eexists _, _, _; (split; [reflexivity|]);
    split_trace; simpl_server;
    rewrite ?(wrap32_add_back _ 1);
    repeat split; auto; right; eauto.
Qed.

(** The same, for a run of any length. *)
Lemma loop_frame (envs : list queue_env) :
  forall (s : server) (b : Backoff),
    exists v s' b',
      loop'' envs s b = (v, s', b') /\
      deleteQueue_cap s' = deleteQueue_cap s /\
      ((length (deleteQueue s) <= deleteQueue_cap s)%nat ->
       (length (deleteQueue s') <= deleteQueue_cap s')%nat) /\
      deleteQueue s `prefix_of` deleteQueue s' /\
      orm_deletes (trace s') = orm_deletes (trace s) /\
      transmitQueueDeleteErrorCount s' = transmitQueueDeleteErrorCount s /\
      deleteThreadBusyCount s' = deleteThreadBusyCount s /\
      (is_int32 (transmitThreadBusyCount s) ->
       transmitThreadBusyCount s' = transmitThreadBusyCount s).
Proof.
  induction envs as [|e envs IH]; intros s b.
  - eexists _, _, _. split; [reflexivity|]. repeat split; auto.
  - cbn [queueLoop].
    destruct (round_frame e s b)
      as (v & s1 & b1 & -> & Hcap1 & Hq1 & Horm1 & Herr1 & Hdel1 & Hbusy1).
    assert (((length (deleteQueue s) <= deleteQueue_cap s)%nat ->
             (length (deleteQueue s1) <= deleteQueue_cap s1)%nat) /\
            deleteQueue s `prefix_of` deleteQueue s1) as [Hbound1 Hpre1].
    { destruct Hq1 as [->|(t & _ & -> & Hroom)].
      - split; [lia|done].
      - rewrite length_app. cbn [length]. split; [lia|].
        by apply prefix_app_r. }
    assert (is_int32 (transmitThreadBusyCount s) ->
            transmitThreadBusyCount s1 = transmitThreadBusyCount s) as Hb1.
    { intros Hrange. destruct Hbusy1 as [->| ->]; [done|by apply wrap32_id]. }
    destruct v.
    + destruct (IH s1 b1)
        as (v & s' & b' & -> & Hcap' & Hbound' & Hpre' & Horm' & Herr' & Hdel' & Hbusy').
      eexists _, _, _. split; [reflexivity|].
      split; [congruence|]. split; [auto|]. split; [by etrans|].
      split; [congruence|]. split; [congruence|]. split; [congruence|].
      intros Hrange. rewrite Hbusy' by (by rewrite Hb1). by apply Hb1.
    + eexists _, _, _. split; [reflexivity|]. repeat split; auto.
    + eexists _, _, _. split; [reflexivity|]. repeat split; auto.
Qed.

(** X9. Whatever the environment answers, a run of the transmit loop
    keeps the delete channel within its capacity, and only appends to it. *)
Theorem transmit_loop_keeps_the_delete_channel_bounded
    (envs : list queue_env) (s : server) (b : Backoff) :
  (length (deleteQueue s) <= deleteQueue_cap s)%nat ->
  exists v s' b',
    loop'' envs s b = (v, s', b') /\
    deleteQueue_cap s' = deleteQueue_cap s /\
    (length (deleteQueue s') <= deleteQueue_cap s')%nat /\
    deleteQueue s `prefix_of` deleteQueue s'.
Proof.
  intros Hcap.
  destruct (loop_frame envs s b) as (v & s' & b' & Hrun & ? & Hbound & ? & _).
  exists v, s', b'. repeat split; auto.
Qed.

(** X10. Whatever the environment answers, and however the run ends (the
    loop returns, panics, or is still going), the busy counter of the
    transmit loop is back at its value: every round that raises it lowers
    it again. *)
Theorem transmit_busy_counter_is_balanced
    (envs : list queue_env) (s : server) (b : Backoff) :
  is_int32 (transmitThreadBusyCount s) ->
  exists v s' b',
    loop'' envs s b = (v, s', b') /\
    transmitThreadBusyCount s' = transmitThreadBusyCount s.
Proof.
  intros Hrange.
  destruct (loop_frame envs s b)
    as (v & s' & b' & Hrun & _ & _ & _ & _ & _ & _ & Hbusy).
  exists v, s', b'. split; [done|]. by apply Hbusy.
Qed.

(** X11. The transmit loop never asks the ORM to delete, and never moves
    the delete-error counter or the busy counter of the delete loop. *)
Theorem transmit_loop_leaves_the_delete_side_alone
    (envs : list queue_env) (s : server) (b : Backoff) :
  exists v s' b',
    loop'' envs s b = (v, s', b') /\
    orm_deletes (trace s') = orm_deletes (trace s) /\
    transmitQueueDeleteErrorCount s' = transmitQueueDeleteErrorCount s /\
    deleteThreadBusyCount s' = deleteThreadBusyCount s.
Proof.
  destruct (loop_frame envs s b)
    as (v & s' & b' & Hrun & _ & _ & _ & ? & ? & ? & _).
  by exists v, s', b'.
Qed.

(** X12. A round whose context is cancelled once [transmit] is back
    abandons the popped record, whatever the send did: the loop returns,
    no success or error is counted, the record is not pushed back and no
    deletion is requested, and the backoff is untouched. *)
Theorem cancelled_round_abandons_the_record
    (e : queue_env) (s : server) (b : Backoff) (t : Transmission) :
  q_BlockingPop e = Some t ->
  ctx_Err e = true ->
  exists s',
    round'' e s b = (Exit, s', b) /\
    transmitSuccessCount s' = transmitSuccessCount s /\
    transmitDuplicateCount s' = transmitDuplicateCount s /\
    transmitConnectionErrorCount s' = transmitConnectionErrorCount s /\
    transmitServerErrorCount s' = transmitServerErrorCount s /\
    pushes (trace s') = pushes (trace s) /\
    waits (trace s') = waits (trace s) /\
    deleteQueue s' = deleteQueue s.
Proof.
  intros Hpop Hctx. unfold queueLoop_round. rewrite Hpop, Hctx.
  destruct (transmit_cases ReportFormatJSON ReportFormatEVMPremiumLegacy
              jsonPacker_Pack evmPremiumLegacyPacker_Pack e t)
    as [[err ->]|[req [-> _]]];
    eexists; (split; [reflexivity|]); split_trace; simpl_server;
    repeat split; done.
Qed.

(** X13. A round in which [transmit] fails before the network (an
    unsupported format or a packer error), the context not being
    cancelled, panics at the log line that reads the nil request, after
    the connection-error counter went up by one: the record is neither
    pushed back nor requested for deletion, no wait is started, and
    the run of the loop ends there. *)
Theorem encoding_error_panics_the_round
    (e : queue_env) (envs : list queue_env) (s : server) (b : Backoff)
    (t : Transmission) (err : string) :
  q_BlockingPop e = Some t ->
  transmit'' e t = (None, None, Some err, []) ->
  ctx_Err e = false ->
  exists s',
    round'' e s b = (Panicked, s', b) /\
    loop'' (e :: envs) s b = (Crashed, s', b) /\
    transmitConnectionErrorCount s' = transmitConnectionErrorCount s + 1 /\
    trace s' = trace s /\
    deleteQueue s' = deleteQueue s /\
    transmitThreadBusyCount s' = wrap32 (transmitThreadBusyCount s).
Proof.
  intros Hpop Htransmit Hctx. cbn [queueLoop].
  unfold queueLoop_round. rewrite Hpop, Htransmit, Hctx.
  eexists. split; [reflexivity|]. split; [reflexivity|].
  simpl_server. rewrite (wrap32_add_back _ 1), app_nil_r. repeat split; done.
Qed.

(** X14. A round in which the server replies, the context not being
    cancelled, is never retried, whatever the reply says: the loop goes
    on with its backoff reset, nothing is pushed back, no wait is started,
    the connection-error counter stays, and the deletion of the record is
    requested once, without blocking: the hash goes to the delete loop
    when it is parked on the channel, else into the buffer when there is
    room, else it is dropped with one critical log line. *)
Theorem reply_is_never_retried
    (e : queue_env) (s : server) (b : Backoff) (t : Transmission)
    (res : TransmitResponse) :
  replied ReportFormatJSON ReportFormatEVMPremiumLegacy
    jsonPacker_Pack evmPremiumLegacyPacker_Pack e t res ->
  exists s',
    round'' e s b = (Continue, s', Reset b) /\
    pushes (trace s') = pushes (trace s) /\
    waits (trace s') = waits (trace s) /\
    transmitConnectionErrorCount s' = transmitConnectionErrorCount s /\
    (deleteQueue_receiver e = true ->
       handed_over (trace s') = handed_over (trace s) ++ [Hash t] /\
       deleteQueue s' = deleteQueue s /\
       critical_logs (trace s') = critical_logs (trace s)) /\
    (deleteQueue_receiver e = false ->
     (length (deleteQueue s) < deleteQueue_cap s)%nat ->
       deleteQueue s' = deleteQueue s ++ [Hash t] /\
       handed_over (trace s') = handed_over (trace s) /\
       critical_logs (trace s') = critical_logs (trace s)) /\
    (deleteQueue_receiver e = false ->
     (deleteQueue_cap s <= length (deleteQueue s))%nat ->
       deleteQueue s' = deleteQueue s /\
       handed_over (trace s') = handed_over (trace s) /\
       critical_logs (trace s') = critical_logs (trace s) ++ ["Delete queue is full"]).
Proof.
  intros (Hpop & (req & Htransmit) & Hctx).
  unfold queueLoop_round, request_delete. rewrite Hpop, Htransmit, Hctx.
  destruct (String.eqb (Error res) "");
    [|destruct (Code res =? DuplicateReport)]; simpl_server;
    (destruct (deleteQueue_receiver e);
     [|destruct (Nat.ltb_spec (length (deleteQueue s)) (deleteQueue_cap s))
         as [Hroom|Hfull]]);
    eexists; (split; [reflexivity|]); split_trace; simpl_server;
    repeat split; try done; lia.
Qed.

(** X15. How a reply is counted. A reply with an empty Error counts as
    one success, whatever its code, and nothing else; a reply with an
    Error and a code other than DuplicateReport adds one to the
    server-error counter of this code and to no other counter. *)
Theorem reply_is_counted_by_error_then_code
    (e : queue_env) (s : server) (b : Backoff) (t : Transmission)
    (res : TransmitResponse) :
  replied ReportFormatJSON ReportFormatEVMPremiumLegacy
    jsonPacker_Pack evmPremiumLegacyPacker_Pack e t res ->
  exists s',
    round'' e s b = (Continue, s', Reset b) /\
    (Error res = "" ->
       transmitSuccessCount s' = transmitSuccessCount s + 1 /\
       transmitDuplicateCount s' = transmitDuplicateCount s /\
       transmitServerErrorCount s' = transmitServerErrorCount s) /\
    (Error res <> "" -> Code res <> DuplicateReport ->
       transmitSuccessCount s' = transmitSuccessCount s /\
       transmitDuplicateCount s' = transmitDuplicateCount s /\
       transmitServerErrorCount s' !! Code res
       = Some (default 0 (transmitServerErrorCount s !! Code res) + 1) /\
       forall code, code <> Code res ->
         transmitServerErrorCount s' !! code = transmitServerErrorCount s !! code).
Proof.
  intros (Hpop & (req & Htransmit) & Hctx).
  unfold queueLoop_round, request_delete. rewrite Hpop, Htransmit, Hctx.
  destruct (String.eqb_spec (Error res) "") as [Herr|Herr];
    [|destruct (Z.eqb_spec (Code res) DuplicateReport) as [Hcode|Hcode]];
    simpl_server;
    (destruct (deleteQueue_receiver e);
     [|destruct (length (deleteQueue s) <? deleteQueue_cap s)%nat]);
    eexists; (split; [reflexivity|]); simpl_server;
    (split; [intros ?|intros ? ?]); try done; repeat split; try done;
    try apply lookup_insert_eq; intros code Hne; by apply lookup_insert_ne.
Qed.

Abbreviation transport_error' :=
  (transport_error ReportFormatJSON ReportFormatEVMPremiumLegacy
     jsonPacker_Pack evmPremiumLegacyPacker_Pack).

(** One round that fails on the network, from the attempt [k] on. *)
Lemma transport_error_round (e : queue_env) (t : Transmission) (s : server) (k : Z) :
  transport_error' e t -> 0 <= k -> k + 1 < 2 ^ 64 ->
  exists s' d,
    round'' e s (with_attempt k queue_backoff)
    = (Continue, s', with_attempt (k + 1) queue_backoff) /\
    transmitConnectionErrorCount s' = transmitConnectionErrorCount s + 1 /\
    transmitSuccessCount s' = transmitSuccessCount s /\
    deleteQueue s' = deleteQueue s /\
    pushes (trace s') = pushes (trace s) ++ [t] /\
    waits (trace s') = waits (trace s) ++ [d] /\
    5 * Millisecond <= d <= Z.min (1 * Second) (5 * Millisecond * 2 ^ k) /\
    (k = 0 -> d = 5 * Millisecond).
Proof.
  intros (Hpop & (req & res & err & Htransmit) & Hctx & Hpush & Hstop & Hrnd) Hk Hmax.
  unfold queueLoop_round. rewrite Hpop, Htransmit, Hctx, Hpush, Hstop.
  cbn [negb Duration attempt with_attempt].
  replace (wrap_u64 (k + 1)) with (k + 1)
    by (unfold wrap_u64; rewrite Z.mod_small; lia).
  destruct (ForAttempt_bounds (with_attempt k queue_backoff) k (q_rand e)
              (queue_backoff_doubling k) Hk Hrnd) as [Hbound Hfirst].
  eexists _, _. split; [reflexivity|]. split_trace. simpl_server.
  repeat split; try done; apply Hbound.
Qed.

Lemma transport_errors_in_a_row (envs : list queue_env) (ts : list Transmission)
    (rest : list queue_env) :
  forall (s : server) (k : Z),
    Forall2 transport_error' envs ts ->
    0 <= k -> k + Z.of_nat (length envs) < 2 ^ 64 ->
    exists s' ds,
      loop'' (envs ++ rest) s (with_attempt k queue_backoff)
      = loop'' rest s' (with_attempt (k + Z.of_nat (length envs)) queue_backoff) /\
      transmitConnectionErrorCount s'
      = transmitConnectionErrorCount s + Z.of_nat (length envs) /\
      transmitSuccessCount s' = transmitSuccessCount s /\
      deleteQueue s' = deleteQueue s /\
      pushes (trace s') = pushes (trace s) ++ ts /\
      waits (trace s') = waits (trace s) ++ ds /\
      length ds = length envs /\
      (forall (i : nat) d, ds !! i = Some d ->
         5 * Millisecond <= d
           <= Z.min (1 * Second) (5 * Millisecond * 2 ^ (k + Z.of_nat i)) /\
         (k + Z.of_nat i = 0 -> d = 5 * Millisecond)).
Proof.
  intros s k Hall. revert s k.
  induction Hall as [|e t envs ts He Hall IH]; intros s k Hk Hmax.
  - exists s, []. cbn [app length]. rewrite Z.add_0_r, !app_nil_r.
    repeat split; try done. lia.
  - cbn [length] in Hmax. cbn [app queueLoop].
    destruct (transport_error_round e t s k He Hk ltac:(lia))
      as (s1 & d & -> & Hc1 & Hs1 & Hq1 & Hp1 & Hw1 & Hd & Hfirst).
    destruct (IH s1 (k + 1) ltac:(lia) ltac:(lia))
      as (s' & ds & Hrun & Hc & Hs & Hq & Hp & Hw & Hlen & Hds).
    exists s', (d :: ds).
    split; [rewrite Hrun; do 2 f_equal; cbn [length]; lia|].
    split; [rewrite Hc, Hc1; cbn [length]; lia|].
    split; [congruence|]. split; [congruence|].
    split; [by rewrite Hp, Hp1, <- app_assoc|].
    split; [by rewrite Hw, Hw1, <- app_assoc|].
    split; [cbn [length]; lia|].
    intros [|i] d' Hd'.
    + cbn in Hd'. injection Hd' as <-. rewrite Z.add_0_r.
      split; [done|]. intros ->. by apply Hfirst.
    + cbn in Hd'. destruct (Hds i d' Hd') as [Hb Hf].
      replace (k + Z.of_nat (S i)) with (k + 1 + Z.of_nat i) by lia.
      split; [done|]. intros ?; lia.
Qed.

(** X16. A run of the transmit loop in which n rounds in a row fail on
    the network (the push accepted, no stop): the loop is still going,
    the connection-error counter went up by n, the popped records were
    pushed back in order, no deletion was requested, and the loop waited
    n times, the i-th wait (from 0) between 5ms and 5ms doubled i times,
    never above 1s, the first being 5ms. *)
Theorem failures_in_a_row_back_off_from_5ms
    (envs : list queue_env) (ts : list Transmission) (s : server) :
  Forall2 transport_error' envs ts ->
  Z.of_nat (length envs) < 2 ^ 64 ->
  exists s' ds,
    runQueueLoop ReportFormatJSON ReportFormatEVMPremiumLegacy DuplicateReport
      Hash jsonPacker_Pack evmPremiumLegacyPacker_Pack envs s
    = (Running, s', with_attempt (Z.of_nat (length envs)) queue_backoff) /\
    transmitConnectionErrorCount s'
    = transmitConnectionErrorCount s + Z.of_nat (length envs) /\
    deleteQueue s' = deleteQueue s /\
    pushes (trace s') = pushes (trace s) ++ ts /\
    waits (trace s') = waits (trace s) ++ ds /\
    length ds = length envs /\
    (forall (i : nat) d, ds !! i = Some d ->
       5 * Millisecond <= d
         <= Z.min (1 * Second) (5 * Millisecond * 2 ^ Z.of_nat i) /\
       (i = 0%nat -> d = 5 * Millisecond)).
Proof.
  intros Hall Hmax.
  destruct (transport_errors_in_a_row envs ts [] s 0 Hall ltac:(lia) ltac:(lia))
    as (s' & ds & Hrun & Hc & _ & Hq & Hp & Hw & Hlen & Hds).
  rewrite app_nil_r in Hrun. cbn [queueLoop] in Hrun. rewrite Z.add_0_l in Hrun.
  exists s', ds. split; [exact Hrun|]. repeat split; try done.
  - destruct (Hds i d H) as [Hb _]. rewrite Z.add_0_l in Hb. lia.
  - destruct (Hds i d H) as [Hb _]. rewrite Z.add_0_l in Hb. lia.
  - intros ->. destruct (Hds 0%nat d H) as [_ Hf]. by apply Hf.
Qed.

(** X17. The backoff starts again after a reply: however many failures
    came before, a network failure in the round after a reply of the
    server waits 5ms. *)
Theorem backoff_restarts_after_a_reply
    (e1 e2 : queue_env) (t1 t2 : Transmission) (res : TransmitResponse)
    (rest : list queue_env) (s : server) (k : Z) :
  replied ReportFormatJSON ReportFormatEVMPremiumLegacy
    jsonPacker_Pack evmPremiumLegacyPacker_Pack e1 t1 res ->
  transport_error' e2 t2 ->
  exists s',
    loop'' (e1 :: e2 :: rest) s (with_attempt k queue_backoff)
    = loop'' rest s' (with_attempt 1 queue_backoff) /\
    waits (trace s') = waits (trace s) ++ [5 * Millisecond] /\
    pushes (trace s') = pushes (trace s) ++ [t2].
Proof.
  intros Hreply Herror. cbn [queueLoop].
  destruct Hreply as (Hpop & (req & Htransmit) & Hctx).
  assert (exists s1,
            round'' e1 s (with_attempt k queue_backoff)
            = (Continue, s1, with_attempt 0 queue_backoff) /\
            waits (trace s1) = waits (trace s) /\
            pushes (trace s1) = pushes (trace s)) as (s1 & -> & Hw1 & Hp1).
  { unfold queueLoop_round, request_delete. rewrite Hpop, Htransmit, Hctx.
    destruct (String.eqb (Error res) "");
      [|destruct (Code res =? DuplicateReport)]; simpl_server;
      (destruct (deleteQueue_receiver e1);
       [|destruct (length (deleteQueue s) <? deleteQueue_cap s)%nat]);
      eexists; (split; [reflexivity|]); split_trace; simpl_server; done. }
  destruct (transport_error_round e2 t2 s1 0 Herror ltac:(lia) ltac:(lia))
    as (s' & d & -> & _ & _ & _ & Hp & Hw & _ & Hfirst).
  exists s'. split; [reflexivity|].
  rewrite Hw, Hp, Hw1, Hp1, (Hfirst eq_refl). done.
Qed.

End TransmitLoopFacts.

Section DeleteLoopFacts.

Import time backoff mercurytransmitter rounds.

(** The attempts that fail, one after the other: each is counted, handed
    to the ORM and waited for, and each raises the busy counter. *)
Lemma delete_attempts_failures (hash : list byte) (rest : list delete_env) :
  forall (fails : list delete_env) (s : server) (k : Z),
    Forall failed_attempt fails ->
    0 <= k -> k + Z.of_nat (length fails) < 2 ^ 64 ->
    exists s',
      delete_attempts (fails ++ rest) hash s (with_attempt k delete_backoff)
      = delete_attempts rest hash s'
          (with_attempt (k + Z.of_nat (length fails)) delete_backoff) /\
      transmitQueueDeleteErrorCount s'
      = transmitQueueDeleteErrorCount s + Z.of_nat (length fails) /\
      deleteQueue s' = deleteQueue s /\
      orm_deletes (trace s') = orm_deletes (trace s) ++ replicate (length fails) hash /\
      length (waits (trace s')) = (length (waits (trace s)) + length fails)%nat /\
      (is_int32 (deleteThreadBusyCount s) ->
       deleteThreadBusyCount s + Z.of_nat (length fails) < 2 ^ 31 ->
       deleteThreadBusyCount s'
       = deleteThreadBusyCount s + Z.of_nat (length fails)).
Proof.
  induction fails as [|e fails IH]; intros s k Hfails Hk Hmax.
  - exists s. cbn [app length]. rewrite !Z.add_0_r, app_nil_r.
    repeat split; try done; try lia.
  - apply Forall_cons in Hfails as [(Hfail & Hstop & Hrnd) Hfails].
    destruct Hfail as [err Herr]. cbn [length] in Hmax.
    cbn [app delete_attempts]. rewrite Herr, Hstop.
    cbn [Duration attempt with_attempt].
    replace (wrap_u64 (k + 1)) with (k + 1)
      by (unfold wrap_u64; rewrite Z.mod_small; lia).
    set (s1 := emit [EvAfter _] _).
    destruct (IH s1 (k + 1) Hfails ltac:(lia) ltac:(lia))
      as (s' & Hrun & Hcount & Hq & Hdel & Hwait & Hbusy).
    change (with_attempt (k + 1) (with_attempt k delete_backoff))
      with (with_attempt (k + 1) delete_backoff).
    exists s'. split; [rewrite Hrun; do 2 f_equal; cbn [length]; lia|].
    subst s1. revert Hcount Hq Hdel Hwait Hbusy. split_trace. simpl_server.
    intros Hcount Hq Hdel Hwait Hbusy.
    split; [cbn [length]; lia|]. split; [done|].
    split; [by rewrite Hdel, <- app_assoc|].
    split; [rewrite Hwait, length_app; cbn [length]; lia|].
    intros Hrange Hroom. cbn [length] in Hroom.
    rewrite wrap32_id in Hbusy by (unfold is_int32 in *; lia).
    rewrite Hbusy; [cbn [length]; lia|unfold is_int32 in *; lia|lia].
Qed.

(** X18. The busy counter of the delete loop is raised by every attempt
    and lowered once per hash: after a hash whose deletion failed k times
    before it succeeded, the counter stands k above its value. *)
Theorem delete_busy_counter_drifts_by_the_failures
    (hash : list byte) (queue : list (list byte)) (s : server)
    (fails : list delete_env) (ok : delete_env) (rounds : list delete_round) :
  deleteQueue s = hash :: queue ->
  Forall failed_attempt fails ->
  orm_Delete ok = None ->
  is_int32 (deleteThreadBusyCount s) ->
  deleteThreadBusyCount s + Z.of_nat (length fails) + 1 < 2 ^ 31 ->
  exists s',
    deleteQueueLoop
      ({| stop_first := false; attempts := fails ++ [ok] |} :: rounds)
      s delete_backoff
    = deleteQueueLoop rounds s' delete_backoff /\
    deleteThreadBusyCount s' = deleteThreadBusyCount s + Z.of_nat (length fails).
Proof.
  intros Hqueue Hfails Hok Hrange Hroom.
  destruct (delete_attempts_failures hash [ok] fails (set_deleteQueue queue s) 0
              Hfails ltac:(lia))
    as (s1 & Hrun & _ & _ & _ & _ & Hbusy).
  { unfold is_int32 in *. lia. }
  change (with_attempt 0 delete_backoff) with delete_backoff in Hrun.
  cbn [deleteQueueLoop stop_first attempts]. rewrite Hqueue, Hrun.
  cbn [delete_attempts]. rewrite Hok.
  eexists. split; [reflexivity|].
  simpl_server. rewrite Hbusy by (done || lia).
  rewrite (wrap32_add_back _ 1). apply wrap32_id. unfold is_int32 in *. lia.
Qed.

(** X19. A stop during the wait after a failed attempt ends the delete
    loop at once: the hash that was being retried has left the channel
    and is not put back, the hashes behind it stay in the channel, every
    failure was counted, and the later rounds are not run. *)
Theorem stop_during_retry_drops_the_hash
    (hash : list byte) (queue : list (list byte)) (s : server)
    (fails : list delete_env) (last : delete_env) (later : list delete_env)
    (rounds : list delete_round) :
  deleteQueue s = hash :: queue ->
  Forall failed_attempt fails ->
  stopped_attempt last ->
  Z.of_nat (length fails) + 1 < 2 ^ 64 ->
  exists s' b',
    deleteQueueLoop
      ({| stop_first := false; attempts := fails ++ last :: later |} :: rounds)
      s delete_backoff
    = (Returned, s', b') /\
    deleteQueue s' = queue /\
    transmitQueueDeleteErrorCount s'
    = transmitQueueDeleteErrorCount s + Z.of_nat (length fails) + 1 /\
    orm_deletes (trace s')
    = orm_deletes (trace s) ++ replicate (S (length fails)) hash.
Proof.
  intros Hqueue Hfails ([err Herr] & Hstop) Hmax.
  destruct (delete_attempts_failures hash (last :: later) fails
              (set_deleteQueue queue s) 0 Hfails ltac:(lia) ltac:(lia))
    as (s1 & Hrun & Hcount & Hq & Hdel & _).
  change (with_attempt 0 delete_backoff) with delete_backoff in Hrun.
  cbn [deleteQueueLoop stop_first attempts]. rewrite Hqueue, Hrun.
  cbn [delete_attempts]. rewrite Herr, Hstop.
  cbn [Duration attempt with_attempt].
  eexists _, _. split; [reflexivity|].
  revert Hcount Hq Hdel. split_trace. simpl_server. intros Hcount Hq Hdel.
  split; [done|]. split; [lia|].
  rewrite Hdel, <- app_assoc. f_equal.
  change [hash] with (replicate 1 hash). rewrite <- replicate_add.
  f_equal. lia.
Qed.

(** Rounds that delete at the first attempt. *)
Lemma first_try_rounds (rounds : list delete_round) :
  forall (s : server),
    Forall first_try rounds ->
    exists s',
      deleteQueueLoop rounds s delete_backoff = (Running, s', delete_backoff) /\
      deleteQueue s' = drop (length rounds) (deleteQueue s) /\
      orm_deletes (trace s')
      = orm_deletes (trace s) ++ take (length rounds) (deleteQueue s) /\
      transmitQueueDeleteErrorCount s' = transmitQueueDeleteErrorCount s /\
      waits (trace s') = waits (trace s).
Proof.
  induction rounds as [|r rounds IH]; intros s Hall.
  - exists s. cbn. rewrite take_0, drop_0, app_nil_r. done.
  - apply Forall_cons in Hall as [(Hstop & ok & rest & Hatt & Hok) Hall].
    cbn [deleteQueueLoop]. rewrite Hstop.
    destruct (deleteQueue s) as [|hash queue] eqn:Hqueue.
    + exists s. rewrite Hqueue. cbn. rewrite app_nil_r. done.
    + rewrite Hatt. cbn [delete_attempts]. rewrite Hok.
      change (Reset delete_backoff) with delete_backoff.
      set (s1 := add_deleteThreadBusyCount (-1) _).
      destruct (IH s1 Hall) as (s' & Hrun & Hq & Hdel & Hcount & Hwait).
      exists s'. split; [done|].
      subst s1. revert Hq Hdel Hcount Hwait. split_trace. simpl_server.
      intros Hq Hdel Hcount Hwait.
      cbn [length drop take]. split; [done|]. split; [|done].
      by rewrite Hdel, <- app_assoc.
Qed.

(** X20. The delete loop takes the hashes in the order of the channel:
    after n rounds that each delete at the first attempt, the ORM was
    asked for the first n hashes of the channel, in this order and once
    each, the others are still in the channel, and no error was counted
    and no wait started. *)
Theorem hashes_are_deleted_in_channel_order
    (rounds : list delete_round) (s : server) :
  Forall first_try rounds ->
  exists s',
    runDeleteQueueLoop rounds s = (Running, s', delete_backoff) /\
    deleteQueue s' = drop (length rounds) (deleteQueue s) /\
    orm_deletes (trace s')
    = orm_deletes (trace s) ++ take (length rounds) (deleteQueue s) /\
    transmitQueueDeleteErrorCount s' = transmitQueueDeleteErrorCount s /\
    waits (trace s') = waits (trace s).
Proof. intros Hall. by apply first_try_rounds. Qed.

(** What the attempts on one hash leave alone, whatever the environment
    answers. *)
Lemma delete_attempts_frame (hash : list byte) (envs : list delete_env) :
  forall (s : server) (b : Backoff),
    exists s' b',
      (delete_attempts envs hash s b = Deleted s' b' \/
       delete_attempts envs hash s b = Stopped s' b' \/
       delete_attempts envs hash s b = Retrying s' b') /\
      deleteQueue s' = deleteQueue s /\
      deleteQueue_cap s' = deleteQueue_cap s /\
      pushes (trace s') = pushes (trace s) /\
      network_calls (trace s') = network_calls (trace s) /\
      transmitSuccessCount s' = transmitSuccessCount s /\
      transmitDuplicateCount s' = transmitDuplicateCount s /\
      transmitConnectionErrorCount s' = transmitConnectionErrorCount s /\
      transmitServerErrorCount s' = transmitServerErrorCount s /\
      transmitThreadBusyCount s' = transmitThreadBusyCount s /\
      transmitQueueDeleteErrorCount s <= transmitQueueDeleteErrorCount s'.
Proof.
  induction envs as [|e envs IH]; intros s b.
  - exists s, b. cbn. repeat split; auto; try lia.
  - cbn [delete_attempts].
    destruct (orm_Delete e) as [err|].
    + cbn [Duration]. destruct (d_stopCh e).
      * eexists _, _. split; [right; left; reflexivity|].
        split_trace. simpl_server. repeat split; auto; try lia.
      * set (s1 := emit [EvAfter _] _). set (b1 := with_attempt _ b).
        destruct (IH s1 b1) as (s' & b' & Hrun & Hrest).
        exists s', b'. split; [exact Hrun|].
        subst s1. revert Hrest. split_trace. simpl_server. intros Hrest.
        repeat split; try apply Hrest.
        destruct Hrest as (_ & _ & _ & _ & _ & _ & _ & _ & _ & Hle). lia.
    + eexists _, _. split; [left; reflexivity|].
      split_trace. simpl_server. repeat split; auto; try lia.
Qed.

(** X21. Whatever the environment answers, a run of the delete loop only
    takes hashes from the front of the channel, never pushes a record
    back, never calls the network, never moves a counter of the transmit
    loop, and never lowers the delete-error counter. *)
Theorem delete_loop_leaves_the_transmit_side_alone (rounds : list delete_round) :
  forall (s : server) (b : Backoff),
    exists v s' b',
      deleteQueueLoop rounds s b = (v, s', b') /\
      deleteQueue s' `suffix_of` deleteQueue s /\
      deleteQueue_cap s' = deleteQueue_cap s /\
      pushes (trace s') = pushes (trace s) /\
      network_calls (trace s') = network_calls (trace s) /\
      transmitSuccessCount s' = transmitSuccessCount s /\
      transmitDuplicateCount s' = transmitDuplicateCount s /\
      transmitConnectionErrorCount s' = transmitConnectionErrorCount s /\
      transmitServerErrorCount s' = transmitServerErrorCount s /\
      transmitThreadBusyCount s' = transmitThreadBusyCount s /\
      transmitQueueDeleteErrorCount s <= transmitQueueDeleteErrorCount s'.
Proof.
  induction rounds as [|r rounds IH]; intros s b.
  - eexists _, _, _. split; [reflexivity|]. repeat split; auto; try lia.
  - cbn [deleteQueueLoop]. destruct (stop_first r).
    { eexists _, _, _. split; [reflexivity|]. repeat split; auto; try lia. }
    destruct (deleteQueue s) as [|hash queue] eqn:Hqueue.
    { eexists _, _, _. split; [reflexivity|]. rewrite Hqueue.
      repeat split; auto; try lia. }
    destruct (delete_attempts_frame hash (attempts r) (set_deleteQueue queue s) b)
      as (s1 & b1 & Hrun & Hq & Hcap & Hp & Hn & Hs & Hd & Hc & Hse & Hb & Hle).
    revert Hq Hcap Hp Hn Hs Hd Hc Hse Hb Hle. simpl_server.
    intros Hq Hcap Hp Hn Hs Hd Hc Hse Hb Hle.
    assert (deleteQueue s1 `suffix_of` hash :: queue) as Hsuf.
    { rewrite Hq. by apply suffix_cons_r. }
    destruct Hrun as [-> | [-> | ->]].
    + destruct (IH (add_deleteThreadBusyCount (-1) s1) (Reset b1))
        as (v & s' & b' & -> & Hq' & Hcap' & Hp' & Hn' & Hs' & Hd' & Hc' & Hse'
            & Hb' & Hle').
      revert Hq' Hcap' Hp' Hn' Hs' Hd' Hc' Hse' Hb' Hle'. simpl_server.
      intros Hq' Hcap' Hp' Hn' Hs' Hd' Hc' Hse' Hb' Hle'.
      eexists _, _, _. split; [reflexivity|].
      split; [by etrans|]. repeat split; try congruence. lia.
    + eexists _, _, _. split; [reflexivity|]. repeat split; auto.
    + eexists _, _, _. split; [reflexivity|]. repeat split; auto.
Qed.

End DeleteLoopFacts.

Section BothLoops.

Import time backoff mercurytransmitter rounds.

Variables ReportFormatJSON ReportFormatEVMPremiumLegacy DuplicateReport : Z.
Variable Hash : Transmission -> list byte.
Variables jsonPacker_Pack evmPremiumLegacyPacker_Pack :
  list byte -> Z -> list byte -> list AttributedOnchainSignature ->
  list byte * option string.

(** X22. From the reply to the ORM. After a round in which the server
    replies while the delete loop is not parked on the channel, rounds of
    the delete loop that delete at the first attempt, one per hash of the
    channel, hand to the ORM the hashes that were waiting and then, when
    the buffer had room, the hash of the record; when the buffer was full
    the hash of the record never reaches the ORM. *)
Theorem acknowledged_record_reaches_the_orm_when_there_is_room
    (e : queue_env) (s : server) (b : Backoff) (t : Transmission)
    (res : TransmitResponse) (rounds : list delete_round) :
  replied ReportFormatJSON ReportFormatEVMPremiumLegacy
    jsonPacker_Pack evmPremiumLegacyPacker_Pack e t res ->
  deleteQueue_receiver e = false ->
  Forall first_try rounds ->
  (length (deleteQueue s) < length rounds)%nat ->
  exists s1 s2,
    queueLoop_round ReportFormatJSON ReportFormatEVMPremiumLegacy DuplicateReport
      Hash jsonPacker_Pack evmPremiumLegacyPacker_Pack e s b
    = (Continue, s1, Reset b) /\
    runDeleteQueueLoop rounds s1 = (Running, s2, delete_backoff) /\
    deleteQueue s2 = [] /\
    ((length (deleteQueue s) < deleteQueue_cap s)%nat ->
       orm_deletes (trace s2) = orm_deletes (trace s) ++ deleteQueue s ++ [Hash t]) /\
    ((deleteQueue_cap s <= length (deleteQueue s))%nat ->
       orm_deletes (trace s2) = orm_deletes (trace s) ++ deleteQueue s).
Proof.
  intros (Hpop & (req & Htransmit) & Hctx) Hbusy Hall Hlen.
  assert (exists s1,
            queueLoop_round ReportFormatJSON ReportFormatEVMPremiumLegacy
              DuplicateReport Hash jsonPacker_Pack evmPremiumLegacyPacker_Pack e s b
            = (Continue, s1, Reset b) /\
            orm_deletes (trace s1) = orm_deletes (trace s) /\
            deleteQueue s1
            = if (length (deleteQueue s) <? deleteQueue_cap s)%nat
              then deleteQueue s ++ [Hash t] else deleteQueue s)
    as (s1 & Hround & Horm & Hq).
  { unfold queueLoop_round, request_delete. rewrite Hpop, Htransmit, Hctx, Hbusy.
    destruct (String.eqb (Error res) "");
      [|destruct (Code res =? DuplicateReport)]; simpl_server;
      destruct (length (deleteQueue s) <? deleteQueue_cap s)%nat;
      eexists; (split; [reflexivity|]); split_trace; simpl_server; done. }
  destruct (first_try_rounds rounds s1 Hall) as (s2 & Hrun & Hq2 & Horm2 & _).
  exists s1, s2. split; [done|]. split; [done|].
  rewrite Hq2, Horm2, Horm, Hq.
  destruct (Nat.ltb_spec (length (deleteQueue s)) (deleteQueue_cap s)) as [Hroom|Hfull].
  - split; [|split; [|lia]].
    + apply drop_ge. rewrite length_app. cbn [length]. lia.
    + intros _. rewrite take_ge; [done|]. rewrite length_app. cbn [length]. lia.
  - split; [|split; [lia|]].
    + apply drop_ge. lia.
    + intros _. rewrite take_ge; [done|lia].
Qed.

End BothLoops.

(** * The further properties on the sample inputs *)

Lemma seed_is_the_digest_cut_to_16_bytes_witness :
  length (transmission.transmissionScheduleSeed sample.digest sample_more.long_id)
  = 16%nat /\
  transmission.transmissionScheduleSeed sample.digest sample_more.long_id
  = take 16 (sample.digest (list_byte_of_string sample_more.long_id)).
Proof.
  destruct (seed_is_the_digest_cut_to_16_bytes sample.digest sample_more.long_id)
    as [Hlen Hprefix].
  split; [exact Hlen|]. apply Hprefix. vm_compute. lia.
Defined.

Lemma delayFor_picks_the_bucket_of_the_rank_witness :
  exists j : nat,
    (j < length sample_more.shape)%nat /\
    transmission.sum_ints (take j sample_more.shape) <= 0
      < transmission.sum_ints (take (S j) sample_more.shape) /\
    transmission.delayFor 1 sample_more.shape sample_more.picked (1 * time.Second)
    = Ret (Some (transmission.stage_delay (1 * time.Second) (Z.of_nat j))).
Proof.
  apply (proj1 (delayFor_picks_the_bucket_of_the_rank
                  1 sample_more.picked 0 (1 * time.Second) eq_refl sample_more.shape
                  ltac:(repeat constructor; lia) ltac:(vm_compute; reflexivity)
                  ltac:(lia))).
  vm_compute. reflexivity.
Defined.

Lemma unknown_schedule_gives_no_delays_witness :
  transmission.GetPeerIDToTransmissionDelaysForConfig
    sample.digest sample.Permutation sample.peers "exec-1" sample_more.roundRobin_1s
  = Error ("unknown schedule type " +:+ "roundRobin").
Proof.
  apply (unknown_schedule_gives_no_delays sample.digest sample.Permutation
           sample.peers "exec-1" sample_more.roundRobin_1s); discriminate.
Defined.

Lemma oneAtATime_peers_are_a_stage_apart_witness :
  exists m,
    transmission.GetPeerIDToTransmissionDelaysForConfig
      sample.digest sample.Permutation sample.peers "exec-1" sample.oneAtATime_1s
    = Ret m /\
    forall p q x y,
      m !! p = Some x -> m !! q = Some y -> p <> q ->
      Z.abs (1 * time.Second) <= Z.abs (x - y).
Proof.
  destruct (oneAtATime_peers_are_a_stage_apart sample.digest sample.Permutation
              sample_Permutation_bijection sample.peers "exec-1"
              sample.oneAtATime_1s) as (m & Hm & _ & Hapart).
  - exact sample_peers_NoDup.
  - vm_compute. reflexivity.
  - reflexivity.
  - vm_compute. split; [discriminate|reflexivity].
  - exists m. split; [exact Hm|exact Hapart].
Defined.

Lemma allAtOnce_map_is_zero_on_the_peers_witness :
  exists m,
    transmission.GetPeerIDToTransmissionDelaysForConfig
      sample.digest sample.Permutation sample_more.peers_with_duplicate "exec-1"
      sample.allAtOnce_1s = Ret m /\
    forall p,
      m !! p = if decide (p ∈ sample_more.peers_with_duplicate) then Some 0 else None.
Proof.
  destruct (allAtOnce_map_is_zero_on_the_peers sample.digest sample.Permutation
              sample_Permutation_bijection sample_more.peers_with_duplicate "exec-1"
              sample.allAtOnce_1s) as (m & Hm & Hlook & _).
  - vm_compute. reflexivity.
  - reflexivity.
  - exists m. split; [exact Hm|exact Hlook].
Defined.

Lemma request_without_schedule_sends_all_at_once_witness :
  exists m,
    transmission_request.GetPeerIDToTransmissionDelay
      sample.UnwrapTo sample_more.any_id sample.digest sample.Permutation
      sample.peers sample_more.request_without_config = Ret m /\
    forall p, m !! p = if decide (p ∈ sample.peers) then Some 0 else None.
Proof.
  apply (request_without_schedule_sends_all_at_once
           sample.UnwrapTo sample_more.any_id sample.digest sample.Permutation
           sample_Permutation_bijection sample.peers
           sample_more.request_without_config).
  - reflexivity.
  - reflexivity.
  - vm_compute. reflexivity.
Defined.

Lemma unknown_schedule_fails_when_delays_are_computed_witness :
  transmission.ExtractTransmissionConfig sample.UnwrapTo sample_more.stage_only
  = Ret {| transmission.Schedule := ""; transmission.DeltaStage := 1 * time.Second |} /\
  transmission_request.GetPeerIDToTransmissionDelay
    sample.UnwrapTo sample_more.any_id sample.digest sample.Permutation
    sample.peers sample_more.request_with_stage_only
  = Error ("unknown schedule type " +:+ "").
Proof.
  apply (unknown_schedule_fails_when_delays_are_computed
           sample.UnwrapTo sample_more.any_id sample.digest sample.Permutation
           sample.peers sample_more.request_with_stage_only sample_more.stage_only
           (1 * time.Second)).
  - reflexivity.
  - intros [_ Hd]. discriminate Hd.
  - vm_compute. reflexivity.
  - discriminate.
  - discriminate.
  - reflexivity.
Defined.

Lemma transmit_calls_the_network_iff_packing_succeeds_witness :
  mercurytransmitter.transmit sample.ReportFormatJSON
    sample.ReportFormatEVMPremiumLegacy sample.Pack sample.Pack
    sample_more.failing_round sample_more.json_record
  = (Some (sample.request sample.ReportFormatJSON), None, Some "connection reset",
     [mercurytransmitter.EvClientTransmit (sample.request sample.ReportFormatJSON)]).
Proof.
  apply (proj1 (transmit_calls_the_network_iff_packing_succeeds
                  sample.ReportFormatJSON sample.ReportFormatEVMPremiumLegacy
                  sample.Pack sample.Pack
                  sample_more.failing_round sample_more.json_record)).
  reflexivity.
Defined.

Lemma transmit_loop_keeps_the_delete_channel_bounded_witness :
  exists v s' b',
    sample_more.run [sample_more.duplicate_round; sample_more.duplicate_round;
                     sample_more.duplicate_round] = (v, s', b') /\
    mercurytransmitter.deleteQueue_cap s' = 2%nat /\
    (length (mercurytransmitter.deleteQueue s') <= mercurytransmitter.deleteQueue_cap s')%nat /\
    [] `prefix_of` mercurytransmitter.deleteQueue s'.
Proof.
  apply (transmit_loop_keeps_the_delete_channel_bounded
           sample.ReportFormatJSON sample.ReportFormatEVMPremiumLegacy
           sample.DuplicateReport sample.Hash sample.Pack sample.Pack
           [sample_more.duplicate_round; sample_more.duplicate_round;
            sample_more.duplicate_round]
           sample.idle_server mercurytransmitter.queue_backoff).
  vm_compute. lia.
Defined.

Lemma transmit_busy_counter_is_balanced_witness :
  exists v s' b',
    sample_more.run [sample_more.duplicate_round; sample_more.unsupported_round]
    = (v, s', b') /\
    mercurytransmitter.transmitThreadBusyCount s' = 0.
Proof.
  apply (transmit_busy_counter_is_balanced
           sample.ReportFormatJSON sample.ReportFormatEVMPremiumLegacy
           sample.DuplicateReport sample.Hash sample.Pack sample.Pack
           [sample_more.duplicate_round; sample_more.unsupported_round]
           sample.idle_server mercurytransmitter.queue_backoff).
  vm_compute. split; [discriminate|reflexivity].
Defined.

Lemma cancelled_round_abandons_the_record_witness :
  exists s',
    sample.first_round sample_more.cancelled_round
    = (mercurytransmitter.Exit, s', mercurytransmitter.queue_backoff) /\
    mercurytransmitter.transmitSuccessCount s' = 0 /\
    mercurytransmitter.transmitDuplicateCount s' = 0 /\
    mercurytransmitter.pushes (mercurytransmitter.trace s') = [] /\
    mercurytransmitter.deleteQueue s' = [].
Proof.
  destruct (cancelled_round_abandons_the_record
              sample.ReportFormatJSON sample.ReportFormatEVMPremiumLegacy
              sample.DuplicateReport sample.Hash sample.Pack sample.Pack
              sample_more.cancelled_round sample.idle_server
              mercurytransmitter.queue_backoff sample_more.json_record
              eq_refl eq_refl)
    as (s' & Hrun & Hs & Hd & _ & _ & Hp & _ & Hq).
  exists s'. repeat split; assumption.
Defined.

Lemma encoding_error_panics_the_round_witness :
  exists s',
    sample.first_round sample_more.unsupported_round
    = (mercurytransmitter.Panicked, s', mercurytransmitter.queue_backoff) /\
    sample_more.run [sample_more.unsupported_round; sample_more.duplicate_round]
    = (mercurytransmitter.Crashed, s', mercurytransmitter.queue_backoff) /\
    mercurytransmitter.transmitConnectionErrorCount s' = 1 /\
    mercurytransmitter.trace s' = [] /\
    mercurytransmitter.deleteQueue s' = [].
Proof.
  destruct (encoding_error_panics_the_round
              sample.ReportFormatJSON sample.ReportFormatEVMPremiumLegacy
              sample.DuplicateReport sample.Hash sample.Pack sample.Pack
              sample_more.unsupported_round [sample_more.duplicate_round]
              sample.idle_server mercurytransmitter.queue_backoff
              (sample.record sample.unsupported_format)
              "Transmit failed; don't know how to Pack unsupported report format"
              eq_refl eq_refl eq_refl)
    as (s' & Hround & Hrun & Hcount & Htrace & Hq & _).
  exists s'. repeat split; assumption.
Defined.

Lemma server_error_round_replied :
  rounds.replied sample.ReportFormatJSON sample.ReportFormatEVMPremiumLegacy
    sample.Pack sample.Pack sample_more.server_error_round sample_more.json_record
    sample.server_error_reply.
Proof. split; [reflexivity|]. split; [eexists; reflexivity|reflexivity]. Qed.

Lemma duplicate_round_replied :
  rounds.replied sample.ReportFormatJSON sample.ReportFormatEVMPremiumLegacy
    sample.Pack sample.Pack sample_more.duplicate_round sample_more.json_record
    sample.duplicate_reply.
Proof. split; [reflexivity|]. split; [eexists; reflexivity|reflexivity]. Qed.

Lemma failing_round_transport_error :
  rounds.transport_error sample.ReportFormatJSON sample.ReportFormatEVMPremiumLegacy
    sample.Pack sample.Pack sample_more.failing_round sample_more.json_record.
Proof.
  split; [reflexivity|]. split; [do 3 eexists; reflexivity|].
  repeat split; try reflexivity. vm_compute. discriminate.
Qed.

Lemma reply_is_never_retried_witness :
  exists s',
    sample.first_round sample_more.server_error_round
    = (mercurytransmitter.Continue, s',
       backoff.Reset mercurytransmitter.queue_backoff) /\
    mercurytransmitter.pushes (mercurytransmitter.trace s') = [] /\
    mercurytransmitter.deleteQueue s' = [sample.Hash sample_more.json_record].
Proof.
  destruct (reply_is_never_retried
              sample.ReportFormatJSON sample.ReportFormatEVMPremiumLegacy
              sample.DuplicateReport sample.Hash sample.Pack sample.Pack
              sample_more.server_error_round sample.idle_server
              mercurytransmitter.queue_backoff sample_more.json_record
              sample.server_error_reply server_error_round_replied)
    as (s' & Hrun & Hp & _ & _ & _ & Hroom & _).
  exists s'. split; [exact Hrun|]. split; [exact Hp|].
  apply Hroom; [reflexivity|]. vm_compute. lia.
Defined.

Lemma reply_is_counted_by_error_then_code_witness :
  exists s',
    sample.first_round sample_more.server_error_round
    = (mercurytransmitter.Continue, s',
       backoff.Reset mercurytransmitter.queue_backoff) /\
    mercurytransmitter.transmitSuccessCount s' = 0 /\
    mercurytransmitter.transmitServerErrorCount s' !! 1 = Some 1.
Proof.
  destruct (reply_is_counted_by_error_then_code
              sample.ReportFormatJSON sample.ReportFormatEVMPremiumLegacy
              sample.DuplicateReport sample.Hash sample.Pack sample.Pack
              sample_more.server_error_round sample.idle_server
              mercurytransmitter.queue_backoff sample_more.json_record
              sample.server_error_reply server_error_round_replied)
    as (s' & Hrun & _ & Hserver).
  destruct Hserver as (Hs & _ & Hcode & _); [discriminate|discriminate|].
  exists s'. repeat split; assumption.
Defined.

Lemma failures_in_a_row_back_off_from_5ms_witness :
  exists s' ds,
    mercurytransmitter.runQueueLoop sample.ReportFormatJSON
      sample.ReportFormatEVMPremiumLegacy sample.DuplicateReport sample.Hash
      sample.Pack sample.Pack
      [sample_more.failing_round; sample_more.failing_round] sample.idle_server
    = (mercurytransmitter.Running, s',
       backoff.with_attempt 2 mercurytransmitter.queue_backoff) /\
    mercurytransmitter.transmitConnectionErrorCount s' = 2 /\
    mercurytransmitter.pushes (mercurytransmitter.trace s')
    = [sample_more.json_record; sample_more.json_record] /\
    mercurytransmitter.waits (mercurytransmitter.trace s') = ds /\
    length ds = 2%nat.
Proof.
  destruct (failures_in_a_row_back_off_from_5ms
              sample.ReportFormatJSON sample.ReportFormatEVMPremiumLegacy
              sample.DuplicateReport sample.Hash sample.Pack sample.Pack
              [sample_more.failing_round; sample_more.failing_round]
              [sample_more.json_record; sample_more.json_record]
              sample.idle_server)
    as (s' & ds & Hrun & Hcount & _ & Hp & Hw & Hlen & _).
  - constructor; [exact failing_round_transport_error|].
    constructor; [exact failing_round_transport_error|constructor].
  - vm_compute. reflexivity.
  - exists s', ds. repeat split; assumption.
Defined.

Lemma backoff_restarts_after_a_reply_witness :
  exists s',
    mercurytransmitter.queueLoop sample.ReportFormatJSON
      sample.ReportFormatEVMPremiumLegacy sample.DuplicateReport sample.Hash
      sample.Pack sample.Pack
      [sample_more.duplicate_round; sample_more.failing_round] sample.idle_server
      (backoff.with_attempt 6 mercurytransmitter.queue_backoff)
    = (mercurytransmitter.Running, s',
       backoff.with_attempt 1 mercurytransmitter.queue_backoff) /\
    mercurytransmitter.waits (mercurytransmitter.trace s') = [5 * time.Millisecond].
Proof.
  destruct (backoff_restarts_after_a_reply
              sample.ReportFormatJSON sample.ReportFormatEVMPremiumLegacy
              sample.DuplicateReport sample.Hash sample.Pack sample.Pack
              sample_more.duplicate_round sample_more.failing_round
              sample_more.json_record sample_more.json_record
              sample.duplicate_reply [] sample.idle_server 6
              duplicate_round_replied failing_round_transport_error)
    as (s' & Hrun & Hw & _).
  exists s'. split; [exact Hrun|exact Hw].
Defined.

Lemma delete_busy_counter_drifts_by_the_failures_witness :
  exists s',
    mercurytransmitter.deleteQueueLoop
      [{| mercurytransmitter.stop_first := false;
          mercurytransmitter.attempts :=
            [sample.failing_delete; sample.failing_delete] ++ [sample.working_delete] |}]
      sample.server_with_request mercurytransmitter.delete_backoff
    = mercurytransmitter.deleteQueueLoop [] s' mercurytransmitter.delete_backoff /\
    mercurytransmitter.deleteThreadBusyCount s' = 2.
Proof.
  apply (delete_busy_counter_drifts_by_the_failures
           [x01] [] sample.server_with_request
           [sample.failing_delete; sample.failing_delete] sample.working_delete []).
  - reflexivity.
  - repeat constructor; vm_compute; (eauto || discriminate).
  - reflexivity.
  - vm_compute. split; [discriminate|reflexivity].
  - vm_compute. reflexivity.
Defined.

Lemma stop_during_retry_drops_the_hash_witness :
  exists s' b',
    mercurytransmitter.deleteQueueLoop
      [{| mercurytransmitter.stop_first := false;
          mercurytransmitter.attempts :=
            [sample.failing_delete] ++ [sample_more.stopping_delete] |};
       sample_more.easy_round]
      sample.server_with_request mercurytransmitter.delete_backoff
    = (mercurytransmitter.Returned, s', b') /\
    mercurytransmitter.deleteQueue s' = [] /\
    mercurytransmitter.transmitQueueDeleteErrorCount s' = 2 /\
    mercurytransmitter.orm_deletes (mercurytransmitter.trace s') = [[x01]; [x01]].
Proof.
  apply (stop_during_retry_drops_the_hash
           [x01] [] sample.server_with_request
           [sample.failing_delete] sample_more.stopping_delete []
           [sample_more.easy_round]).
  - reflexivity.
  - repeat constructor; vm_compute; (eauto || discriminate).
  - split; [vm_compute; eauto|reflexivity].
  - vm_compute. reflexivity.
Defined.

Lemma easy_round_first_try : rounds.first_try sample_more.easy_round.
Proof. split; [reflexivity|]. do 2 eexists. split; reflexivity. Qed.

Lemma hashes_are_deleted_in_channel_order_witness :
  exists s',
    mercurytransmitter.runDeleteQueueLoop [sample_more.easy_round]
      sample.server_with_request
    = (mercurytransmitter.Running, s', mercurytransmitter.delete_backoff) /\
    mercurytransmitter.deleteQueue s' = [] /\
    mercurytransmitter.orm_deletes (mercurytransmitter.trace s') = [[x01]] /\
    mercurytransmitter.transmitQueueDeleteErrorCount s' = 0 /\
    mercurytransmitter.waits (mercurytransmitter.trace s') = [].
Proof.
  apply (hashes_are_deleted_in_channel_order [sample_more.easy_round]
           sample.server_with_request).
  constructor; [exact easy_round_first_try|constructor].
Defined.

Lemma acknowledged_record_reaches_the_orm_when_there_is_room_witness :
  exists s1 s2,
    sample.first_round sample_more.duplicate_round
    = (mercurytransmitter.Continue, s1,
       backoff.Reset mercurytransmitter.queue_backoff) /\
    mercurytransmitter.runDeleteQueueLoop [sample_more.easy_round] s1
    = (mercurytransmitter.Running, s2, mercurytransmitter.delete_backoff) /\
    mercurytransmitter.deleteQueue s2 = [] /\
    mercurytransmitter.orm_deletes (mercurytransmitter.trace s2)
    = [sample.Hash sample_more.json_record].
Proof.
  destruct (acknowledged_record_reaches_the_orm_when_there_is_room
              sample.ReportFormatJSON sample.ReportFormatEVMPremiumLegacy
              sample.DuplicateReport sample.Hash sample.Pack sample.Pack
              sample_more.duplicate_round sample.idle_server
              mercurytransmitter.queue_backoff sample_more.json_record
              sample.duplicate_reply [sample_more.easy_round]
              duplicate_round_replied)
    as (s1 & s2 & Hround & Hrun & Hq & Hroom & _).
  - reflexivity.
  - constructor; [exact easy_round_first_try|constructor].
  - vm_compute. lia.
  - exists s1, s2. repeat split; try assumption.
    apply Hroom. vm_compute. lia.
Defined.
